(** * Bandersnatch: the classification pipeline of [app/machine.py]

    The development embeds the [Machine] class (constructor, call, save,
    open, info) as it is written.  [Machine] is a thin orchestration of
    pandas, imbalanced-learn, scikit-learn and joblib.  What these packages
    do to the data is modelled in the first half of the file; the numeric
    kernels (neighbour interpolation, libsvm, the generator behind
    [RandomState], the encoding of libsvm's arrays in a pickle) are left as
    the fields of two interfaces, [Sklearn] and [Joblib], so that every
    theorem holds whatever they compute. *)

From Stdlib Require Import String Ascii ZArith QArith Qabs Lia Bool Arith.
From Stdlib Require Import List Permutation.
Import ListNotations.

Local Open Scope string_scope.
Local Open Scope nat_scope.
Local Open Scope list_scope.

Set Implicit Arguments.

(** ** Python exceptions

    [machine.py] defines no exception class, has no [raise] and no [except]:
    whatever leaves a method of [Machine] is an exception raised by Python
    itself or by one of the packages, and it propagates unchanged.  The
    messages are abridged.  The classes the pipeline is shown to raise have
    a constructor each; [OtherError] carries any other class by its name. *)

Inductive exn : Type :=
| KeyError (key : string)
| ValueError (msg : string)
| FileNotFoundError (path : string)
| UnpicklingError (msg : string)
| OtherError (cls : string) (msg : string).

(** [type(e).__name__] *)
Definition exn_class (e : exn) : string :=
  match e with
  | KeyError _ => "KeyError"
  | ValueError _ => "ValueError"
  | FileNotFoundError _ => "FileNotFoundError"
  | UnpicklingError _ => "UnpicklingError"
  | OtherError cls _ => cls
  end.

Inductive result (A : Type) : Type :=
| Ok (a : A)
| Raise (e : exn).

Arguments Ok {A} a.
Arguments Raise {A} e.

Definition bind {A B : Type} (r : result A) (k : A -> result B) : result B :=
  match r with
  | Ok a => k a
  | Raise e => Raise e
  end.

Declare Scope py_scope.
Delimit Scope py_scope with py.
Notation "x <- r ;; k" := (bind r (fun x => k))
  (at level 100, r at next level, right associativity) : py_scope.
Notation "' p <- r ;; k" := (bind r (fun p => k))
  (at level 100, p pattern, r at next level, right associativity) : py_scope.
Local Open Scope py_scope.

(** [None] of the body when [r] raised. *)
Definition raised {A : Type} (r : result A) : option exn :=
  match r with
  | Ok _ => None
  | Raise e => Some e
  end.

Fixpoint mapM {A B : Type} (f : A -> result B) (l : list A) : result (list B) :=
  match l with
  | [] => Ok []
  | a :: l' => b <- f a ;; bs <- mapM f l' ;; Ok (b :: bs)
  end.

Definition obind {A B : Type} (o : option A) (k : A -> option B) : option B :=
  match o with
  | Some a => k a
  | None => None
  end.

Notation "x <~ o ;; k" := (obind o (fun x => k))
  (at level 100, o at next level, right associativity) : py_scope.

Fixpoint mapO {A B : Type} (f : A -> option B) (l : list A) : option (list B) :=
  match l with
  | [] => Some []
  | a :: l' => b <~ f a ;; bs <~ mapO f l' ;; Some (b :: bs)
  end.

(** ** Values

    A float64 is a rational: the pipeline only compares floats ([max]) and
    hands them to the numeric kernels.  A class label is what a target
    column can hold: text, or an integral number. *)

Definition Row : Type := list Q.

Inductive Label : Type :=
| LInt (z : Z)
| LStr (s : string).

Definition Label_eq_dec (a b : Label) : {a = b} + {a <> b}.
Proof.
  decide equality; [apply Z.eq_dec | apply string_dec].
Defined.

Definition label_eqb (a b : Label) : bool :=
  if Label_eq_dec a b then true else false.

(** The order numpy sorts labels by.  A column has one dtype, so the two
    mixed cases never meet. *)
Definition label_leb (a b : Label) : bool :=
  match a, b with
  | LInt x, LInt y => (x <=? y)%Z
  | LStr s, LStr t => String.leb s t
  | LInt _, LStr _ => true
  | LStr _, LInt _ => false
  end.

(** ** pandas

    A [Series] is a column with one dtype, numeric or text; a [DataFrame]
    is its columns in order, each under a name of its own, all of one
    length. *)

Inductive Series : Type :=
| NumCol (xs : list Q)
| StrCol (xs : list string).

Definition Series_len (s : Series) : nat :=
  match s with
  | NumCol xs => length xs
  | StrCol xs => length xs
  end.

Definition DataFrame : Type := list (string * Series).

Definition DataFrame_columns (df : DataFrame) : list string := map fst df.

(** [len(df)] *)
Definition DataFrame_len (df : DataFrame) : nat :=
  match df with
  | [] => 0
  | (_, s) :: _ => Series_len s
  end.

(** [df[name]]: the column, [KeyError] when there is none. *)
Fixpoint DataFrame_getitem (df : DataFrame) (name : string) : result Series :=
  match df with
  | [] => Raise (KeyError name)
  | (c, s) :: df' => if String.eqb c name then Ok s else DataFrame_getitem df' name
  end.

(** [df[[n1, ..., nk]]]: the named columns in the order asked for. *)
Definition DataFrame_getitems (df : DataFrame) (names : list string) : result DataFrame :=
  mapM (fun n => s <- DataFrame_getitem df n ;; Ok (n, s)) names.

(** Every column has the length of the table. *)
Definition DataFrame_wf (df : DataFrame) : bool :=
  forallb (fun c => Series_len (snd c) =? DataFrame_len df) df.

(** [set(names) <= set(df.columns)] *)
Definition has_columns (df : DataFrame) (names : list string) : bool :=
  forallb (fun n => existsb (String.eqb n) (DataFrame_columns df)) names.

(** [DataFrame(data)] for no record at all, which is what
    [Database.dataframe] builds from an empty collection: no row and no
    column. *)
Definition DataFrame_empty : DataFrame := [].

(** [df.head(1)]: the first row of the table, as a table. *)
Definition Series_head (s : Series) : Series :=
  match s with
  | NumCol xs => NumCol (firstn 1 xs)
  | StrCol xs => StrCol (firstn 1 xs)
  end.

Definition DataFrame_head (df : DataFrame) : DataFrame :=
  map (fun c => (fst c, Series_head (snd c))) df.

(** The cells of a numeric column. *)
Definition Series_numbers (s : Series) : list Q :=
  match s with
  | NumCol xs => xs
  | StrCol _ => []
  end.

(** [df.iloc[0]] of a numeric table: the first cell of every column. *)
Definition DataFrame_first_row (df : DataFrame) : Row :=
  map (fun c => hd 0%Q (Series_numbers (snd c))) df.

(** The greatest finite float64.  A number beyond it has no finite
    conversion: a Python integer raises [OverflowError], a float is
    infinite, and input validation refuses both. *)
Definition float64_max : Q := inject_Z (2 ^ 1024 - 2 ^ 971).

Definition fits_float64 (q : Q) : bool := Qle_bool (Qabs q) float64_max.

(** A column of numbers that float64 holds. *)
Definition numeric_in_range (s : Series) : bool :=
  match s with
  | NumCol xs => forallb fits_float64 xs
  | StrCol _ => false
  end.

(** Numbers of moderate size: their differences, their squares and the sums
    of four of these are finite in float64, which is what the neighbour
    search, the interpolation and the kernel of the classifier compute on
    the cells of a training row. *)
Definition moderate_bound : Q := inject_Z (2 ^ 500).

Definition moderate (q : Q) : bool := Qle_bool (Qabs q) moderate_bound.

Definition numeric_moderate (s : Series) : bool :=
  match s with
  | NumCol xs => forallb moderate xs
  | StrCol _ => false
  end.

(** A valid feature input for a classifier fitted on the columns [names]:
    a table of these columns under the same names in the same order, every
    cell a number that float64 holds, and at least one row. *)
Definition valid_features (names : list string) (df : DataFrame) : bool :=
  if list_eq_dec string_dec (DataFrame_columns df) names
  then forallb (fun c => numeric_in_range (snd c)) df
       && (0 <? DataFrame_len df) && DataFrame_wf df
  else false.

(** A numeric table: what input validation makes of a [DataFrame] of
    feature columns, and what the samplers hand back.  The columns keep their
    names, the data is carried by rows. *)
Record Frame : Type := mkFrame {
  frame_columns : list string;
  frame_rows : list Row
}.

(** ** numpy *)

Fixpoint insert_label (x : Label) (l : list Label) : list Label :=
  match l with
  | [] => [x]
  | h :: t => if label_leb x h then x :: l else h :: insert_label x t
  end.

Definition sort_labels (l : list Label) : list Label :=
  fold_right insert_label [] l.

(** [np.unique(y)]: the distinct labels, sorted. *)
Definition np_unique (y : list Label) : list Label :=
  sort_labels (nodup Label_eq_dec y).

(** [np.count_nonzero(y == c)] *)
Definition count (y : list Label) (c : Label) : nat :=
  count_occ Label_eq_dec y c.

(** imblearn's [_count_class_sample]: the classes of [np.unique] with their
    counts, as a dict in that order. *)
Definition count_class_sample (y : list Label) : list (Label * nat) :=
  map (fun c => (c, count y c)) (np_unique y).

(** The size of the largest class of [y], and of the smallest. *)
Definition n_majority (y : list Label) : nat :=
  list_max (map snd (count_class_sample y)).

Fixpoint dict_get (d : list (Label * nat)) (k : Label) : option nat :=
  match d with
  | [] => None
  | (k', v) :: d' => if label_eqb k' k then Some v else dict_get d' k
  end.

(** [min(values)] of a sequence that is not empty. *)
Definition list_min (l : list nat) : nat :=
  match l with
  | [] => 0
  | n :: l' => fold_left Nat.min l' n
  end.

Definition n_minority (y : list Label) : nat :=
  list_min (map snd (count_class_sample y)).

(** [d.get(k, 0)] *)
Definition dict_get0 (d : list (Label * nat)) (k : Label) : nat :=
  match dict_get d k with
  | Some v => v
  | None => 0
  end.

(** [max(d, key=d.get)] and [min(d, key=d.get)]: Python keeps the first key
    among those of extreme value. *)
Fixpoint argmax_from (d : list (Label * nat)) (best : Label * nat) : Label * nat :=
  match d with
  | [] => best
  | kv :: d' => argmax_from d' (if snd best <? snd kv then kv else best)
  end.

Fixpoint argmin_from (d : list (Label * nat)) (best : Label * nat) : Label * nat :=
  match d with
  | [] => best
  | kv :: d' => argmin_from d' (if snd kv <? snd best then kv else best)
  end.

Definition dict_argmax (d : list (Label * nat)) : option Label :=
  match d with
  | [] => None
  | kv :: d' => Some (fst (argmax_from d' kv))
  end.

Definition dict_argmin (d : list (Label * nat)) : option Label :=
  match d with
  | [] => None
  | kv :: d' => Some (fst (argmin_from d' kv))
  end.

(** [X[y == c]] *)
Definition class_rows (X : list Row) (y : list Label) (c : Label) : list Row :=
  map fst (filter (fun p => label_eqb (snd p) c) (combine X y)).

(** How many rows of class [c] an under-sampling strategy keeps. *)
Definition kept_of (X : list Row) (y : list Label) (strategy : list (Label * nat))
  (c : Label) : nat :=
  match dict_get strategy c with
  | Some n => Nat.min n (length (class_rows X y c))
  | None => length (class_rows X y c)
  end.

Fixpoint remove_nth {A : Type} (i : nat) (l : list A) : list A :=
  match l, i with
  | [], _ => []
  | _ :: t, 0 => t
  | h :: t, S i' => h :: remove_nth i' t
  end.

(** Rows of a table given by columns: row [i] takes the [i]-th entry of each
    column. *)
Fixpoint transpose (n : nat) (cols : list (list Q)) : list Row :=
  match n with
  | 0 => []
  | S n' => map (hd 0%Q) cols :: transpose n' (map (@tl Q) cols)
  end.

(** [max(xs)] on a sequence of floats: Python keeps the first item and
    replaces it by each later one that is greater. *)
Definition py_max (xs : list Q) : result Q :=
  match xs with
  | [] => Raise (ValueError "max() arg is an empty sequence")
  | x :: xs' => Ok (fold_left (fun m v => if Qlt_le_dec m v then v else m) xs' x)
  end.

(** ** The numeric kernels

    Hyper-parameters of [sklearn.svm.SVC], as the constructor receives them. *)
Record SVC_params : Type := mkSVC_params {
  C : Q;
  kernel : string;
  gamma : Q;
  probability : bool;
  decision_function_shape : string;
  svc_random_state : option Z
}.

(** What the packages compute and the pipeline only passes along.
    - [float_of_str]: numpy's conversion of a text cell to float64, [None]
      where it raises;
    - [RandomState_seed], [rng_below]: [np.random.RandomState(seed)] and
      one bounded draw from a generator, which moves it;
    - [smote_synth g k X_class n i]: the [i]-th of the [n] rows that SMOTE
      interpolates between the rows of one class and their [k] nearest
      neighbours, drawing from [g];
    - [libsvm_train], [libsvm_predict]: libsvm's training and its decision
      for one row;
    - [libsvm_class_weights]: what libsvm's probability estimates for one row
      are made of, one positive weight per class of [classes_], which it
      divides by their sum. *)
Class Sklearn : Type := {
  float_of_str : string -> option Q;
  RandomState : Type;
  RandomState_seed : Z -> RandomState;
  rng_below : RandomState -> nat -> nat * RandomState;
  smote_synth : RandomState -> nat -> list Row -> nat -> nat -> Row;
  Fitted : Type;
  libsvm_train : SVC_params -> RandomState -> list Row -> list Label -> Fitted;
  libsvm_predict : Fitted -> Row -> Label;
  libsvm_class_weights : Fitted -> Row -> positive * list positive
}.

(** Weights as shares of their sum. *)
Definition normalise (ws : positive * list positive) : list Q :=
  let total := fold_left Pos.add (snd ws) (fst ws) in
  map (fun w => Z.pos w # total) (fst ws :: snd ws).

(** libsvm's probability estimates for one row, one entry per class of
    [classes_]. *)
Definition libsvm_predict_proba `{Sklearn} (f : Fitted) (x : Row) : list Q :=
  normalise (libsvm_class_weights f x).

(** What a method reads from outside the program: the wall clock, already
    formatted by [strftime("%Y-%m-%d %I:%M:%S %p")], and numpy's global
    generator, which is the one used when an estimator is given
    [random_state=None]. *)
Record World `{Sklearn} : Type := mkWorld {
  now : string;
  np_random : RandomState
}.

Arguments mkWorld {_} now np_random.

Section Estimators.

Context `{L : Sklearn}.

(** [check_random_state(seed)]: an integer seed makes a fresh generator,
    [None] gives numpy's global one. *)
Definition check_random_state (w : World) (seed : option Z) : RandomState :=
  match seed with
  | Some s => RandomState_seed s
  | None => np_random w
  end.

(** [g.choice(pop, size, replace=False)]: [size] draws, each taking one of
    the items that are left.  Every ordered selection without repetition is
    the outcome of some sequence of draws. *)
Fixpoint choice {A : Type} (g : RandomState) (pop : list A) (size : nat)
  : list A * RandomState :=
  match size with
  | 0 => ([], g)
  | S size' =>
      match pop with
      | [] => ([], g)
      | a0 :: _ =>
          let (r, g') := rng_below g (length pop) in
          let i := r mod (length pop) in
          let (rest, g'') := choice g' (remove_nth i pop) size' in
          (nth i pop a0 :: rest, g'')
      end
  end.

(** *** Input validation (sklearn's [check_X_y], as the samplers call it) *)

Definition is_integral (q : Q) : bool := (Qden (Qred q) =? 1)%positive.

(** [check_classification_targets(y)] and the labels of [y]: a float column
    with a value that is not integral is a continuous target, and refused. *)
Definition series_labels (s : Series) : result (list Label) :=
  match s with
  | StrCol xs => Ok (map LStr xs)
  | NumCol xs =>
      if forallb is_integral xs
      then Ok (map (fun q => LInt (Qnum (Qred q))) xs)
      else Raise (ValueError "Unknown label type: continuous")
  end.

Definition series_floats (s : Series) : result (list Q) :=
  match s with
  | NumCol xs => Ok xs
  | StrCol xs =>
      mapM (fun t => match float_of_str t with
                     | Some q => Ok q
                     | None => Raise (ValueError "could not convert string to float")
                     end) xs
  end.

(** [check_array(X)]: every cell as a float, and at least one sample. *)
Definition check_array (X : DataFrame) : result Frame :=
  cols <- mapM (fun c => series_floats (snd c)) X ;;
  if DataFrame_len X =? 0
  then Raise (ValueError "Found array with 0 sample(s) while a minimum of 1 is required")
  else Ok (mkFrame (DataFrame_columns X) (transpose (DataFrame_len X) cols)).

Definition check_consistent_length (X : list Row) (y : list Label) : result unit :=
  if length X =? length y then Ok tt
  else Raise (ValueError "Found input variables with inconsistent numbers of samples").

(** imblearn's [check_sampling_strategy] starts by refusing a target of one
    class. *)
Definition check_more_than_one_class (y : list Label) : result unit :=
  if length (np_unique y) <=? 1
  then Raise (ValueError "The target 'y' needs to have more than 1 class")
  else Ok tt.

(** *** [imblearn.over_sampling.SMOTE] *)

Record SMOTE : Type := mkSMOTE {
  smote_random_state : option Z;
  k_neighbors : nat
}.

(** [SMOTE(sampling_strategy='auto', random_state=...)]: five neighbours
    by default. *)
Definition SMOTE_new (random_state : option Z) : SMOTE :=
  mkSMOTE random_state 5.

(** ['auto'] for an over-sampler is ['not majority']: every class but the
    majority one is to receive what it lacks to the majority count. *)
Definition sampling_strategy_not_majority (y : list Label) : list (Label * nat) :=
  let target_stats := count_class_sample y in
  let n_sample_majority := list_max (map snd target_stats) in
  match dict_argmax target_stats with
  | None => []
  | Some class_majority =>
      map (fun kv => (fst kv, n_sample_majority - snd kv))
          (filter (fun kv => negb (label_eqb (fst kv) class_majority)) target_stats)
  end.

(** The loop of [SMOTE._fit_resample] over the sampling strategy.  A class
    that lacks nothing is skipped.  For the others the neighbour search is
    fitted on the rows of the class and asked for [k_neighbors + 1]
    neighbours of each, which it refuses when the class has fewer rows. *)
Fixpoint SMOTE_make_all (w : World) (self : SMOTE) (X : list Row) (y : list Label)
  (strategy : list (Label * nat)) : result (list Row * list Label) :=
  match strategy with
  | [] => Ok ([], [])
  | (class_sample, n_samples) :: strategy' =>
      if n_samples =? 0 then SMOTE_make_all w self X y strategy'
      else
        let X_class := class_rows X y class_sample in
        if length X_class <? k_neighbors self + 1
        then Raise (ValueError "Expected n_neighbors <= n_samples_fit")
        else
          let g := check_random_state w (smote_random_state self) in
          let X_new := map (smote_synth g (k_neighbors self) X_class n_samples)
                           (seq 0 n_samples) in
          let y_new := repeat class_sample n_samples in
          ' (Xs, ys) <- SMOTE_make_all w self X y strategy' ;;
          Ok (X_new ++ Xs, y_new ++ ys)
  end.

(** Modelled from the spec: imbalanced-learn is not among the sources, and
    [SMOTE.fit_resample(X, y)] follows the first step of the resampling
    stage: every class smaller than the majority class receives synthetic
    rows of its own label until it has the majority count, and no row is
    removed.  The output is the input rows followed by the synthetic rows,
    class by class.  Its failures are those of the package, each a
    [ValueError]: the program defines no exception of its own. *)
Definition SMOTE_fit_resample (w : World) (self : SMOTE) (X : DataFrame) (y : Series)
  : result (Frame * list Label) :=
  y_ <- series_labels y ;;
  X_ <- check_array X ;;
  _ <- check_consistent_length (frame_rows X_) y_ ;;
  _ <- check_more_than_one_class y_ ;;
  ' (X_new, y_new) <- SMOTE_make_all w self (frame_rows X_) y_
                        (sampling_strategy_not_majority y_) ;;
  Ok (mkFrame (frame_columns X_) (frame_rows X_ ++ X_new), y_ ++ y_new).

(** *** [imblearn.under_sampling.RandomUnderSampler] *)

Record RandomUnderSampler : Type := mkRandomUnderSampler {
  rus_random_state : option Z
}.

(** ['auto'] for an under-sampler is ['not minority']: every class but the
    minority one is to be cut to the minority count. *)
Definition sampling_strategy_not_minority (y : list Label) : list (Label * nat) :=
  let target_stats := count_class_sample y in
  let n_sample_minority := list_min (map snd target_stats) in
  match dict_argmin target_stats with
  | None => []
  | Some class_minority =>
      map (fun kv => (fst kv, n_sample_minority))
          (filter (fun kv => negb (label_eqb (fst kv) class_minority)) target_stats)
  end.

(** The loop of [RandomUnderSampler._fit_resample] over [np.unique(y)],
    one generator for all the classes: a class of the strategy keeps a
    random selection of its rows, the others keep all of theirs. *)
Fixpoint RandomUnderSampler_select (g : RandomState) (X : list Row) (y : list Label)
  (strategy : list (Label * nat)) (classes : list Label) : list (Row * Label) :=
  match classes with
  | [] => []
  | target_class :: classes' =>
      let X_class := class_rows X y target_class in
      match dict_get strategy target_class with
      | Some n_samples =>
          let (picked, g') := choice g X_class n_samples in
          map (fun x => (x, target_class)) picked
            ++ RandomUnderSampler_select g' X y strategy classes'
      | None =>
          map (fun x => (x, target_class)) X_class
            ++ RandomUnderSampler_select g X y strategy classes'
      end
  end.

(** Modelled from the spec: imbalanced-learn is not among the sources, and
    [RandomUnderSampler.fit_resample(X, y)] follows the second step of the
    resampling stage: from every class it selects at random, without
    replacement, as many rows as the smallest class has. *)
Definition RandomUnderSampler_fit_resample (w : World) (self : RandomUnderSampler)
  (X : Frame) (y : list Label) : result (Frame * list Label) :=
  _ <- (if length (frame_rows X) =? 0
        then Raise (ValueError "Found array with 0 sample(s) while a minimum of 1 is required")
        else Ok tt) ;;
  _ <- check_consistent_length (frame_rows X) y ;;
  _ <- check_more_than_one_class y ;;
  let g := check_random_state w (rus_random_state self) in
  let kept := RandomUnderSampler_select g (frame_rows X) y
                (sampling_strategy_not_minority y) (np_unique y) in
  Ok (mkFrame (frame_columns X) (map fst kept), map snd kept).

(** *** [sklearn.svm.SVC] *)

Record SVC : Type := mkSVC {
  svc_params : SVC_params;
  feature_names_in_ : list string;
  classes_ : list Label;
  fitted_ : Fitted
}.

(** [SVC.fit(X, y)]: a target of one class is refused, otherwise libsvm is
    trained with a generator made from [random_state]. *)
Definition SVC_fit (w : World) (params : SVC_params) (X : Frame) (y : list Label)
  : result SVC :=
  _ <- check_consistent_length (frame_rows X) y ;;
  if length (np_unique y) <? 2
  then Raise (ValueError "The number of classes has to be greater than one; got 1 class")
  else
    let g := check_random_state w (svc_random_state params) in
    Ok (mkSVC params (frame_columns X) (np_unique y)
              (libsvm_train params g (frame_rows X) y)).

(** Validation of the input of [predict] and [predict_proba]: the columns
    seen at fit time, under the same names in the same order, and at least
    one row. *)
Definition SVC_validate (self : SVC) (X : DataFrame) : result Frame :=
  if list_eq_dec string_dec (DataFrame_columns X) (feature_names_in_ self)
  then check_array X
  else Raise (ValueError "The feature names should match those that were passed during fit").

(** [SVC.predict(X)]: one label per row. *)
Definition SVC_predict (self : SVC) (X : DataFrame) : result (list Label) :=
  X_ <- SVC_validate self X ;;
  Ok (map (libsvm_predict (fitted_ self)) (frame_rows X_)).

(** [SVC.predict_proba(X)]: one probability vector per row, its entries in
    the order of [classes_]. *)
Definition SVC_predict_proba (self : SVC) (X : DataFrame) : result (list (list Q)) :=
  X_ <- SVC_validate self X ;;
  Ok (map (libsvm_predict_proba (fitted_ self)) (frame_rows X_)).

(** The label and the confidence of one row: libsvm's decision, and the
    greatest of its probability estimates. *)
Definition row_result (self : SVC) (x : Row) : result (Label * Q) :=
  m <- py_max (libsvm_predict_proba (fitted_ self) x) ;;
  Ok (libsvm_predict (fitted_ self) x, m).



End Estimators.

(** ** [class Machine] *)

Module Machine.

Section Methods.

Context `{L : Sklearn}.

Record t : Type := mk {
  name : string;
  model : SVC;
  oversampling : SMOTE;
  undersampling : RandomUnderSampler;
  timestamp : string
}.

(** [Machine(df)] *)
Definition __init__ (w : World) (df : DataFrame) : result t :=
  target <- DataFrame_getitem df "Rarity" ;;
  features <- DataFrame_getitems df ["Level"; "Health"; "Energy"; "Sanity"] ;;
  let name := "Support Vector Machines" in
  let model := mkSVC_params 7 "rbf" (1 # 10) true "ovo" (Some 42%Z) in
  let oversampling := SMOTE_new (Some 42%Z) in
  let undersampling := mkRandomUnderSampler (Some 42%Z) in
  ' (features_resampled, target_resampled) <-
      SMOTE_fit_resample w oversampling features target ;;
  ' (features_resampled, target_resampled) <-
      RandomUnderSampler_fit_resample w undersampling
        features_resampled target_resampled ;;
  model <- SVC_fit w model features_resampled target_resampled ;;
  Ok (mk name model oversampling undersampling (now w)).

(** [machine(feature_basis)].  The two starred assignments take the first
    item and fail on an empty sequence. *)
Definition __call__ (self : t) (feature_basis : DataFrame) : result (Label * Q) :=
  predictions <- SVC_predict (model self) feature_basis ;;
  match predictions with
  | [] => Raise (ValueError "not enough values to unpack (expected at least 1, got 0)")
  | prediction :: _ =>
      probabilities <- SVC_predict_proba (model self) feature_basis ;;
      match probabilities with
      | [] => Raise (ValueError "not enough values to unpack (expected at least 1, got 0)")
      | confidence :: _ =>
          m <- py_max confidence ;;
          Ok (prediction, m)
      end
  end.

(** *** joblib

    [joblib.dump] pickles the object it is given.  For an instance that is
    the reference of its class and its [__dict__], attribute by attribute in
    the order of assignment, down to strings, numbers and the arrays of the
    fitted classifier.  The arrays of libsvm (support vectors, coefficients,
    the parameters of the probability estimates) are taken together; writing
    and reading them is the packages' business. *)
Class Joblib : Type := {
  Arrays : Type;
  dump_fitted : Fitted -> Arrays;
  load_fitted : Arrays -> option Fitted
}.

Context `{J : Joblib}.

(** What a pickle holds. *)
#[warnings="-register-all"]
Inductive PyObj : Type :=
| PyNone
| PyBool (b : bool)
| PyInt (z : Z)
| PyFloat (x : Q)
| PyStr (s : string)
| PyList (items : list PyObj)
| PyInstance (cls : string) (state : list (string * PyObj))
| PyArrays (a : Arrays).

Definition reduce_label (c : Label) : PyObj :=
  match c with
  | LInt z => PyInt z
  | LStr s => PyStr s
  end.

Definition reduce_seed (seed : option Z) : PyObj :=
  match seed with
  | Some z => PyInt z
  | None => PyNone
  end.

Definition reduce_SVC (svc : SVC) : PyObj :=
  PyInstance "sklearn.svm._classes.SVC"
    [ ("C", PyFloat (C (svc_params svc)));
      ("kernel", PyStr (kernel (svc_params svc)));
      ("gamma", PyFloat (gamma (svc_params svc)));
      ("probability", PyBool (probability (svc_params svc)));
      ("decision_function_shape", PyStr (decision_function_shape (svc_params svc)));
      ("random_state", reduce_seed (svc_random_state (svc_params svc)));
      ("feature_names_in_", PyList (map PyStr (feature_names_in_ svc)));
      ("classes_", PyList (map reduce_label (classes_ svc)));
      ("libsvm", PyArrays (dump_fitted (fitted_ svc))) ].

Definition reduce_SMOTE (o : SMOTE) : PyObj :=
  PyInstance "imblearn.over_sampling._smote.base.SMOTE"
    [ ("sampling_strategy", PyStr "auto");
      ("random_state", reduce_seed (smote_random_state o));
      ("k_neighbors", PyInt (Z.of_nat (k_neighbors o))) ].

Definition reduce_RandomUnderSampler (u : RandomUnderSampler) : PyObj :=
  PyInstance "imblearn.under_sampling._prototype_selection._random_under_sampler.RandomUnderSampler"
    [ ("sampling_strategy", PyStr "auto");
      ("random_state", reduce_seed (rus_random_state u)) ].

(** What pickle writes for a controller. *)
Definition reduce (self : t) : PyObj :=
  PyInstance "app.machine.Machine"
    [ ("name", PyStr (name self));
      ("model", reduce_SVC (model self));
      ("oversampling", reduce_SMOTE (oversampling self));
      ("undersampling", reduce_RandomUnderSampler (undersampling self));
      ("timestamp", PyStr (timestamp self)) ].

Fixpoint getattr (state : list (string * PyObj)) (attr : string) : option PyObj :=
  match state with
  | [] => None
  | (a, v) :: state' => if String.eqb a attr then Some v else getattr state' attr
  end.

(** The state of an instance of class [cls]. *)
Definition state_of (cls : string) (o : PyObj) : option (list (string * PyObj)) :=
  match o with
  | PyInstance c state => if String.eqb c cls then Some state else None
  | _ => None
  end.

Definition as_str (o : PyObj) : option string :=
  match o with PyStr s => Some s | _ => None end.

Definition as_float (o : PyObj) : option Q :=
  match o with PyFloat x => Some x | _ => None end.

Definition as_bool (o : PyObj) : option bool :=
  match o with PyBool b => Some b | _ => None end.

Definition as_nat (o : PyObj) : option nat :=
  match o with PyInt z => if (0 <=? z)%Z then Some (Z.to_nat z) else None | _ => None end.

Definition as_seed (o : PyObj) : option (option Z) :=
  match o with PyNone => Some None | PyInt z => Some (Some z) | _ => None end.

Definition as_label (o : PyObj) : option Label :=
  match o with PyInt z => Some (LInt z) | PyStr s => Some (LStr s) | _ => None end.

Definition as_list {A : Type} (f : PyObj -> option A) (o : PyObj) : option (list A) :=
  match o with PyList items => mapO f items | _ => None end.

Definition as_fitted (o : PyObj) : option Fitted :=
  match o with PyArrays a => load_fitted a | _ => None end.

Definition rebuild_SVC (o : PyObj) : option SVC :=
  st <~ state_of "sklearn.svm._classes.SVC" o ;;
  c <~ (v <~ getattr st "C" ;; as_float v) ;;
  k <~ (v <~ getattr st "kernel" ;; as_str v) ;;
  g <~ (v <~ getattr st "gamma" ;; as_float v) ;;
  p <~ (v <~ getattr st "probability" ;; as_bool v) ;;
  d <~ (v <~ getattr st "decision_function_shape" ;; as_str v) ;;
  r <~ (v <~ getattr st "random_state" ;; as_seed v) ;;
  names <~ (v <~ getattr st "feature_names_in_" ;; as_list as_str v) ;;
  classes <~ (v <~ getattr st "classes_" ;; as_list as_label v) ;;
  f <~ (v <~ getattr st "libsvm" ;; as_fitted v) ;;
  Some (mkSVC (mkSVC_params c k g p d r) names classes f).

Definition rebuild_SMOTE (o : PyObj) : option SMOTE :=
  st <~ state_of "imblearn.over_sampling._smote.base.SMOTE" o ;;
  r <~ (v <~ getattr st "random_state" ;; as_seed v) ;;
  k <~ (v <~ getattr st "k_neighbors" ;; as_nat v) ;;
  Some (mkSMOTE r k).

Definition rebuild_RandomUnderSampler (o : PyObj) : option RandomUnderSampler :=
  st <~ state_of
          "imblearn.under_sampling._prototype_selection._random_under_sampler.RandomUnderSampler"
          o ;;
  r <~ (v <~ getattr st "random_state" ;; as_seed v) ;;
  Some (mkRandomUnderSampler r).

(** The controller a pickle holds, when it holds one with the attributes of
    the constructor. *)
Definition rebuild (o : PyObj) : option t :=
  st <~ state_of "app.machine.Machine" o ;;
  n <~ (v <~ getattr st "name" ;; as_str v) ;;
  m <~ (v <~ getattr st "model" ;; rebuild_SVC v) ;;
  ov <~ (v <~ getattr st "oversampling" ;; rebuild_SMOTE v) ;;
  un <~ (v <~ getattr st "undersampling" ;; rebuild_RandomUnderSampler v) ;;
  ts <~ (v <~ getattr st "timestamp" ;; as_str v) ;;
  Some (mk n m ov un ts).

(** What [joblib.load] gives back: a controller, or some other object. *)
Inductive object : Type :=
| IsMachine (m : t)
| IsOther (o : PyObj).

Definition unpickle (o : PyObj) : object :=
  match rebuild o with
  | Some m => IsMachine m
  | None => IsOther o
  end.

(** A file is a pickle or something else. *)
Inductive FileData : Type :=
| Pickle (o : PyObj)
| Bytes (text : string).

(** The files that matter.  A path names a place, the same place under all
    its spellings, or is refused by the system with the error that opening
    it raises (a directory that does not exist, an empty name); a place
    holds a file or nothing. *)
Definition Location : Type := nat.

Record FileSystem : Type := mkFileSystem {
  locate : string -> result Location;
  contents : Location -> option FileData
}.

(** [machine.save(filepath)]: the file system after the call, or the error
    of opening the path for writing, which leaves the files as they were. *)
Definition save (self : t) (filepath : string) (fs : FileSystem) : result FileSystem :=
  loc <- locate fs filepath ;;
  Ok (mkFileSystem (locate fs)
        (fun l => if l =? loc then Some (Pickle (reduce self)) else contents fs l)).

(** [Machine.open(filepath)] *)
Definition open (filepath : string) (fs : FileSystem) : result object :=
  loc <- locate fs filepath ;;
  match contents fs loc with
  | None => Raise (FileNotFoundError filepath)
  | Some (Pickle o) => Ok (unpickle o)
  | Some (Bytes _) => Raise (UnpicklingError "invalid load key")
  end.


(** [machine.info()] *)
Definition info (self : t) : string :=
  let nl := "<br>" in
  "Base Model:" ++ name self ++ nl ++ "Timestamp:" ++ timestamp self.

End Methods.

Arguments t {L}.
Arguments Joblib {L}.
Arguments PyObj {L J}.
Arguments object {L J}.
Arguments FileData {L J}.
Arguments FileSystem {L J}.

End Machine.

(** ** [class Database] ([app/data.py])

    The class keeps one connection for all its instances and each instance
    works on the collection it names, so the store is one map from
    collection names to their documents, shared by every handle.  What
    MonsterLab, the driver and pandas compute on a document is left to an
    interface. *)

Module Database.

(** - [Monster_to_dict]: [Monster().to_dict()], a random monster, drawn from
      Python's generator, which it moves;
    - [with_id]: the document as the driver stores it, under a fresh [_id];
    - [DataFrame_of_records]: [DataFrame(data)] for a list of documents;
    - [to_html]: [DataFrame.to_html()]. *)
Class MonsterLab : Type := {
  Document : Type;
  PyRandom : Type;
  Monster_to_dict : PyRandom -> Document * PyRandom;
  ObjectIds : Type;
  with_id : ObjectIds -> Document -> Document * ObjectIds;
  DataFrame_of_records : list Document -> DataFrame;
  to_html : DataFrame -> string
}.

(** What a method of the class gives back: a value, or the [TypeError] of
    the driver. *)
Inductive outcome (A : Type) : Type :=
| Return (a : A)
| RaiseTypeError (msg : string).

Arguments Return {A} a.
Arguments RaiseTypeError {A} msg.

Record DeleteResult : Type := mkDeleteResult {
  deleted_count : nat;
  delete_acknowledged : bool
}.

Section Methods.

Context `{M : MonsterLab}.

(** The database behind the connection, with the write concern of the
    connection, and the two generators of the process. *)
Record State : Type := mkState {
  collections : string -> list Document;
  write_acknowledged : bool;
  py_random : PyRandom;
  object_ids : ObjectIds
}.

Record t : Type := mk {
  collection : string
}.

(** [Database(collection)] *)
Definition __init__ (collection : string) : t := mk collection.

Definition set_collection (s : State) (name : string) (docs : list Document)
  (ids : ObjectIds) : State :=
  mkState (fun c => if String.eqb c name then docs else collections s c)
          (write_acknowledged s) (py_random s) ids.

(** [[Monster().to_dict() for _ in range(1, amount + 1)]], on the number of
    turns of the range. *)
Fixpoint monsters (turns : nat) (r : PyRandom) : list Document * PyRandom :=
  match turns with
  | 0 => ([], r)
  | S turns' =>
      let (d, r') := Monster_to_dict r in
      let (ds, r'') := monsters turns' r' in
      (d :: ds, r'')
  end.

Fixpoint assign_ids (docs : list Document) (ids : ObjectIds)
  : list Document * ObjectIds :=
  match docs with
  | [] => ([], ids)
  | d :: docs' =>
      let (d', ids') := with_id ids d in
      let (ds, ids'') := assign_ids docs' ids' in
      (d' :: ds, ids'')
  end.

(** [collection.insert_many(documents)]: an empty list is refused, otherwise
    the documents are added after those the collection holds; the result
    tells whether the write was acknowledged. *)
Definition insert_many (name : string) (documents : list Document) (s : State)
  : outcome bool * State :=
  match documents with
  | [] => (RaiseTypeError "documents must be a non-empty list", s)
  | _ :: _ =>
      let (stored, ids) := assign_ids documents (object_ids s) in
      (Return (write_acknowledged s),
       set_collection s name (collections s name ++ stored) ids)
  end.

(** [collection.delete_many({})] *)
Definition delete_many_all (name : string) (s : State) : DeleteResult * State :=
  (mkDeleteResult (length (collections s name)) (write_acknowledged s),
   set_collection s name [] (object_ids s)).

(** [database.seed(amount)] *)
Definition seed (self : t) (amount : Z) (s : State) : outcome bool * State :=
  let (my_monsters, r) := monsters (Z.to_nat amount) (py_random s) in
  let s1 := mkState (collections s) (write_acknowledged s) r (object_ids s) in
  insert_many (collection self) my_monsters s1.

(** [database.reset()]: what comes back is the driver's result, as it is. *)
Definition reset (self : t) (s : State) : DeleteResult * State :=
  delete_many_all (collection self) s.

(** [database.count()] *)
Definition count (self : t) (s : State) : nat :=
  length (collections s (collection self)).

(** [database.dataframe()] *)
Definition dataframe (self : t) (s : State) : DataFrame :=
  let data := collections s (collection self) in
  DataFrame_of_records data.

(** [database.html_table()] *)
Definition html_table (self : t) (s : State) : string :=
  to_html (dataframe self s).

End Methods.

End Database.

(** ** A small instance of the interfaces, to run the pipeline on

    The generator is a counter, a synthetic row repeats a row of its class,
    training remembers the classes; the decision is always the first class
    while the probability estimate favours the second one, the two being
    computed apart (libsvm votes on decision values for the one and fits a
    sigmoid by cross-validation for the other). *)

Module Toy.

#[export] Instance lib : Sklearn := {|
  float_of_str := fun _ => None;
  RandomState := nat;
  RandomState_seed := Z.to_nat;
  rng_below := fun g _ => (g, S g);
  smote_synth := fun g _ X_class _ i => nth ((g + i) mod (length X_class)) X_class [];
  Fitted := list Label;
  libsvm_train := fun _ _ _ y => np_unique y;
  libsvm_predict := fun f _ => hd (LStr "") f;
  libsvm_class_weights := fun _ _ => (3, [7])%positive
|}.

(** The arrays of a fitted classifier, here its classes, are written label
    by label. *)
#[export] Instance joblib : @Machine.Joblib lib :=
  @Machine.Build_Joblib lib
    (list (bool * Z * string))
    (fun f : list Label =>
       map (fun c : Label => match c with
                             | LInt z => (true, z, "")
                             | LStr t => (false, 0%Z, t)
                             end) f)
    (fun a : list (bool * Z * string) =>
       Some (map (fun e : bool * Z * string =>
                    if fst (fst e) then LInt (snd (fst e)) else LStr (snd e)) a)).

(** The controller that construction fits on seven common and six rare
    monsters. *)
Definition machine : Machine.t :=
  Machine.mk "Support Vector Machines"
    (mkSVC (mkSVC_params 7 "rbf" (1 # 10) true "ovo" (Some 42%Z))
           ["Level"; "Health"; "Energy"; "Sanity"]
           [LStr "Rank 0"; LStr "Rank 3"]
           [LStr "Rank 0"; LStr "Rank 3"])
    (SMOTE_new (Some 42%Z)) (mkRandomUnderSampler (Some 42%Z))
    "2023-07-01 09:30:00 AM".

Definition world : World := mkWorld "2023-07-01 09:30:00 AM" 0.

Definition later : World := mkWorld "2023-07-02 11:45:10 PM" 17.

(** A directory with a text file in it.  "model.joblib" and "./model.joblib"
    name one place of it, "notes.txt" another; every other path is refused,
    for want of its directory. *)
Definition disk : Machine.FileSystem :=
  Machine.mkFileSystem
    (fun p => if String.eqb p "model.joblib" then Ok 1
              else if String.eqb p "./model.joblib" then Ok 1
              else if String.eqb p "notes.txt" then Ok 2
              else Raise (FileNotFoundError p))
    (fun l => if l =? 2 then Some (Machine.Bytes "remember the milk") else None).

(** The directory after the controller is saved as "model.joblib". *)
Definition saved : Machine.FileSystem :=
  Machine.mkFileSystem (Machine.locate disk)
    (fun l => if l =? 1 then Some (Machine.Pickle (Machine.reduce machine))
              else Machine.contents disk l).

(** The four feature columns of a table of [n] rows. *)
Definition measures (n : nat) : DataFrame :=
  [ ("Level", NumCol (map (fun i => inject_Z (Z.of_nat i)) (seq 1 n)));
    ("Health", NumCol (repeat (25 # 2)%Q n));
    ("Energy", NumCol (repeat (9 # 1)%Q n));
    ("Sanity", NumCol (repeat (7 # 2)%Q n)) ].

(** A table of [n] rows of one rarity: the four features, the label, and two
    columns the pipeline has no use for. *)
Definition monsters (rarity : string) (n : nat) : DataFrame :=
  ("Name", StrCol (repeat "Imp" n))
    :: ("Rarity", StrCol (repeat rarity n))
    :: measures n
    ++ [ ("Damage", StrCol (repeat "2d6+1" n)) ].

Definition Series_append (a b : Series) : Series :=
  match a, b with
  | NumCol xs, NumCol ys => NumCol (xs ++ ys)
  | StrCol xs, StrCol ys => StrCol (xs ++ ys)
  | _, _ => a
  end.

(** [pandas.concat([a, b])] for two tables of the same columns. *)
Definition concat (a b : DataFrame) : DataFrame :=
  map (fun p => (fst (fst p), Series_append (snd (fst p)) (snd (snd p)))) (combine a b).

(** Seven common monsters and six rare ones. *)
Definition skewed : DataFrame := concat (monsters "Rank 0" 7) (monsters "Rank 3" 6).


(** The table of [skewed] without its "Damage" column and with its "Name"
    column changed. *)
Definition renamed : DataFrame :=
  ("Name", StrCol (repeat "Gremlin" 13)) :: removelast (tl skewed).

(** A table that has lost its "Rarity" column. *)
Definition unlabelled : DataFrame :=
  filter (fun c => negb (String.eqb (fst c) "Rarity")) skewed.

(** One feature row, and a batch of three that starts with it. *)
Definition first_row : Row := [4 # 1; 10 # 1; 8 # 1; 6 # 1]%Q.

Definition more_rows : list Row :=
  [ [9 # 1; 30 # 1; 20 # 1; 15 # 1]; [2 # 1; 5 # 1; 4 # 1; 3 # 1] ]%Q.

Definition one_row : DataFrame :=
  [ ("Level", NumCol [4 # 1]%Q); ("Health", NumCol [10 # 1]%Q);
    ("Energy", NumCol [8 # 1]%Q); ("Sanity", NumCol [6 # 1]%Q) ].

Definition batch : DataFrame :=
  [ ("Level", NumCol [4 # 1; 9 # 1; 2 # 1]%Q); ("Health", NumCol [10 # 1; 30 # 1; 5 # 1]%Q);
    ("Energy", NumCol [8 # 1; 20 # 1; 4 # 1]%Q); ("Sanity", NumCol [6 # 1; 15 # 1; 3 # 1]%Q) ].


(** The stages of construction on [skewed]: the columns it reads, and the
    table after over-sampling and after under-sampling. *)
Definition skewed_target : Series :=
  StrCol (repeat "Rank 0" 7 ++ repeat "Rank 3" 6).

Definition skewed_rarities : list string := repeat "Rank 0" 7 ++ repeat "Rank 3" 6.

Definition skewed_features : DataFrame := concat (measures 7) (measures 6).

Definition skewed_labels : list Label :=
  repeat (LStr "Rank 0") 7 ++ repeat (LStr "Rank 3") 6.

Definition oversampled : Frame * list Label :=
  Eval vm_compute in
    match SMOTE_fit_resample world (SMOTE_new (Some 42%Z)) skewed_features skewed_target with
    | Ok r => r
    | Raise _ => (mkFrame [] [], [])
    end.

Definition undersampled : Frame * list Label :=
  Eval vm_compute in
    match RandomUnderSampler_fit_resample world (mkRandomUnderSampler (Some 42%Z))
            (fst oversampled) (snd oversampled) with
    | Ok r => r
    | Raise _ => (mkFrame [] [], [])
    end.

End Toy.

(** The rows of class [c], each with its label. *)
Definition tagged (X : list Row) (y : list Label) (c : Label) : list (Row * Label) :=
  map (fun x => (x, c)) (class_rows X y c).

(** ** A small store, to run [Database] on

    A document is a number, a monster is the next number of the generator,
    and the driver marks what it stores by adding a hundred times the next
    identifier. *)

Module ToyDB.

#[export] Instance lab : Database.MonsterLab := {|
  Database.Document := nat;
  Database.PyRandom := nat;
  Database.Monster_to_dict := fun r => (r, S r);
  Database.ObjectIds := nat;
  Database.with_id := fun ids d => (d + 100 * ids, S ids);
  Database.DataFrame_of_records := fun data =>
    match data with
    | [] => DataFrame_empty
    | _ :: _ => [("Level", NumCol (map (fun d => inject_Z (Z.of_nat d)) data))]
    end;
  Database.to_html := fun df =>
    ("<table>" ++ String.concat "," (DataFrame_columns df) ++ "</table>")%string
|}.

(** Two monsters in "monsters", one document in "archive". *)
Definition store : Database.State :=
  Database.mkState
    (fun c => if String.eqb c "monsters" then [107; 208]
              else if String.eqb c "archive" then [309] else [])
    true 40 3.

End ToyDB.

(** ** More runs of the pipeline on the small instance *)

Module ToyRuns.

Import Toy.

(** The feature columns of [skewed], validated. *)
Definition skewed_frame : Frame :=
  Eval vm_compute in
    match check_array skewed_features with
    | Ok X => X
    | Raise _ => mkFrame [] []
    end.

(** [skewed] under-sampled as it is, without over-sampling first. *)
Definition skewed_cut : Frame * list Label :=
  Eval vm_compute in
    match RandomUnderSampler_fit_resample world (mkRandomUnderSampler (Some 42%Z))
            skewed_frame skewed_labels with
    | Ok r => r
    | Raise _ => (mkFrame [] [], [])
    end.





(** [skewed] with its columns in the opposite order. *)
Definition reversed : DataFrame := rev skewed.

End ToyRuns.

(** * Properties *)

Unset Implicit Arguments.

(** ** Labels, counts and extremes *)

Lemma label_eqb_eq (a b : Label) : label_eqb a b = true <-> a = b.
Proof.
  unfold label_eqb. destruct (Label_eq_dec a b); split; congruence.
Qed.

Lemma label_eqb_refl (a : Label) : label_eqb a a = true.
Proof. apply label_eqb_eq. reflexivity. Qed.

Lemma label_eqb_neq (a b : Label) : label_eqb a b = false <-> a <> b.
Proof.
  unfold label_eqb. destruct (Label_eq_dec a b); split; congruence.
Qed.

Lemma insert_label_perm (x : Label) (l : list Label) :
  Permutation (insert_label x l) (x :: l).
Proof.
  induction l as [|h t IH]; simpl.
  - apply Permutation_refl.
  - destruct (label_leb x h).
    + apply Permutation_refl.
    + eapply perm_trans; [apply perm_skip, IH | apply perm_swap].
Qed.

Lemma sort_labels_perm (l : list Label) : Permutation (sort_labels l) l.
Proof.
  induction l as [|h t IH]; simpl.
  - apply perm_nil.
  - eapply perm_trans; [apply insert_label_perm | apply perm_skip, IH].
Qed.

Lemma np_unique_In (y : list Label) (c : Label) : In c (np_unique y) <-> In c y.
Proof.
  unfold np_unique. split; intro H.
  - apply (Permutation_in _ (sort_labels_perm _)) in H.
    now apply nodup_In in H.
  - apply (Permutation_in _ (Permutation_sym (sort_labels_perm _))).
    now apply nodup_In.
Qed.

Lemma np_unique_NoDup (y : list Label) : NoDup (np_unique y).
Proof.
  unfold np_unique.
  apply (Permutation_NoDup (Permutation_sym (sort_labels_perm _))).
  apply NoDup_nodup.
Qed.

Lemma np_unique_nil (y : list Label) : np_unique y = [] <-> y = [].
Proof.
  split; intro H.
  - destruct y as [|c y']; [reflexivity|].
    assert (In c (np_unique (c :: y'))) as Hin by (apply np_unique_In; left; reflexivity).
    rewrite H in Hin. destruct Hin.
  - subst. reflexivity.
Qed.

Lemma count_app (y1 y2 : list Label) (c : Label) :
  count (y1 ++ y2) c = count y1 c + count y2 c.
Proof. unfold count. apply count_occ_app. Qed.

Lemma count_repeat (c d : Label) (n : nat) :
  count (repeat d n) c = if label_eqb d c then n else 0.
Proof.
  unfold count, label_eqb. destruct (Label_eq_dec d c) as [->|Hne].
  - apply count_occ_repeat_eq. reflexivity.
  - apply count_occ_repeat_neq. congruence.
Qed.

Lemma count_pos (y : list Label) (c : Label) : In c y <-> 0 < count y c.
Proof. unfold count. apply count_occ_In. Qed.

Lemma count_zero (y : list Label) (c : Label) : ~ In c y <-> count y c = 0.
Proof. unfold count. apply count_occ_not_In. Qed.

Lemma count_class_sample_keys (y : list Label) :
  map fst (count_class_sample y) = np_unique y.
Proof.
  unfold count_class_sample. rewrite map_map. simpl. apply map_id.
Qed.

Lemma count_class_sample_In (y : list Label) (c : Label) (n : nat) :
  In (c, n) (count_class_sample y) <-> In c y /\ n = count y c.
Proof.
  unfold count_class_sample. rewrite in_map_iff. split.
  - intros [c' [Heq Hin]]. inversion Heq; subst. split; [now apply np_unique_In | reflexivity].
  - intros [Hin ->]. exists c. split; [reflexivity | now apply np_unique_In].
Qed.

Lemma list_max_ge (l : list nat) (n : nat) : In n l -> n <= list_max l.
Proof.
  intro H. assert (Forall (fun k => k <= list_max l) l) as HF
    by (apply list_max_le; lia).
  rewrite Forall_forall in HF. now apply HF.
Qed.

Lemma fold_min_le (l : list nat) (a : nat) :
  fold_left Nat.min l a <= a /\ forall n, In n l -> fold_left Nat.min l a <= n.
Proof.
  revert a. induction l as [|h t IH]; intro a; simpl.
  - split; [lia | intros n []].
  - destruct (IH (Nat.min a h)) as [H1 H2]. split; [lia|].
    intros n [->|Hin]; [lia | now apply H2].
Qed.

Lemma fold_min_In (l : list nat) (a : nat) :
  fold_left Nat.min l a = a \/ In (fold_left Nat.min l a) l.
Proof.
  revert a. induction l as [|h t IH]; intro a; simpl.
  - left. reflexivity.
  - destruct (IH (Nat.min a h)) as [H|H].
    + rewrite H. destruct (Nat.min_spec a h) as [[_ ->]|[_ ->]]; auto.
    + right. right. exact H.
Qed.

Lemma list_min_le (l : list nat) (n : nat) : In n l -> list_min l <= n.
Proof.
  destruct l as [|a t]; simpl; [intros []|].
  destruct (fold_min_le t a) as [H1 H2].
  intros [<-|Hin]; [exact H1 | now apply H2].
Qed.

Lemma list_min_In (l : list nat) : l <> [] -> In (list_min l) l.
Proof.
  destruct l as [|a t]; [congruence|]. intros _. simpl.
  destruct (fold_min_In t a) as [->|H]; auto.
Qed.

Lemma argmax_from_spec (d : list (Label * nat)) (best : Label * nat) :
  let r := argmax_from d best in
  (r = best \/ In r d) /\ snd best <= snd r /\ forall kv, In kv d -> snd kv <= snd r.
Proof.
  revert best. induction d as [|kv d' IH]; intro best; simpl.
  - repeat split; auto. intros kv [].
  - destruct (IH (if snd best <? snd kv then kv else best)) as [H1 [H2 H3]].
    destruct (Nat.ltb_spec (snd best) (snd kv)) as [Hlt|Hge].
    + repeat split.
      * destruct H1 as [->|H1]; auto.
      * lia.
      * intros kv' [<-|Hin]; [exact H2 | now apply H3].
    + repeat split.
      * destruct H1 as [->|H1]; auto.
      * exact H2.
      * intros kv' [<-|Hin]; [lia | now apply H3].
Qed.

Lemma argmin_from_spec (d : list (Label * nat)) (best : Label * nat) :
  let r := argmin_from d best in
  (r = best \/ In r d) /\ snd r <= snd best /\ forall kv, In kv d -> snd r <= snd kv.
Proof.
  revert best. induction d as [|kv d' IH]; intro best; simpl.
  - repeat split; auto. intros kv [].
  - destruct (IH (if snd kv <? snd best then kv else best)) as [H1 [H2 H3]].
    destruct (Nat.ltb_spec (snd kv) (snd best)) as [Hlt|Hge].
    + repeat split.
      * destruct H1 as [->|H1]; auto.
      * lia.
      * intros kv' [<-|Hin]; [exact H2 | now apply H3].
    + repeat split.
      * destruct H1 as [->|H1]; auto.
      * exact H2.
      * intros kv' [<-|Hin]; [lia | now apply H3].
Qed.

(** The key that [max(d, key=d.get)] returns is bound to the greatest
    value. *)
Lemma dict_argmax_spec (d : list (Label * nat)) (c : Label) :
  dict_argmax d = Some c -> In (c, list_max (map snd d)) d.
Proof.
  destruct d as [|kv d']; simpl; [discriminate|].
  intro H. inversion H as [Hc]; clear H.
  destruct (argmax_from_spec d' kv) as [H1 [H2 H3]]. simpl in *.
  set (r := argmax_from d' kv) in *.
  assert (In r (kv :: d')) as Hin by (destruct H1 as [->|H1]; [left|right]; auto).
  assert (snd r = Nat.max (snd kv) (list_max (map snd d'))) as Hmax.
  { apply Nat.le_antisymm.
    - change (snd r <= list_max (map snd (kv :: d'))).
      apply list_max_ge. now apply in_map.
    - apply Nat.max_lub; [exact H2|].
      apply list_max_le. rewrite Forall_forall. intros n Hn.
      apply in_map_iff in Hn. destruct Hn as [kv' [<- Hin']]. now apply H3. }
  rewrite <- Hmax. destruct r as [k v]. simpl in *. subst.
  destruct Hin as [Heq|Hin]; [left|right]; auto.
Qed.

(** The key that [min(d, key=d.get)] returns is bound to the least value. *)
Lemma dict_argmin_spec (d : list (Label * nat)) (c : Label) :
  dict_argmin d = Some c -> In (c, list_min (map snd d)) d.
Proof.
  destruct d as [|kv d']; simpl; [discriminate|].
  intro H. inversion H as [Hc]; clear H.
  destruct (argmin_from_spec d' kv) as [H1 [H2 H3]]. simpl in *.
  set (r := argmin_from d' kv) in *.
  assert (In r (kv :: d')) as Hin by (destruct H1 as [->|H1]; [left|right]; auto).
  assert (snd r = fold_left Nat.min (map snd d') (snd kv)) as Hmin.
  { destruct (fold_min_le (map snd d') (snd kv)) as [G1 G2].
    apply Nat.le_antisymm.
    - destruct (fold_min_In (map snd d') (snd kv)) as [->|G]; [exact H2|].
      apply in_map_iff in G. destruct G as [kv' [<- Hin']]. now apply H3.
    - destruct H1 as [->|H1]; [exact G1|]. apply G2. now apply in_map. }
  rewrite <- Hmin. destruct r as [k v]. simpl in *. subst.
  destruct Hin as [Heq|Hin]; [left|right]; auto.
Qed.

(** ** Dictionaries *)

Lemma dict_get_In (d : list (Label * nat)) (k : Label) (v : nat) :
  dict_get d k = Some v -> In (k, v) d.
Proof.
  induction d as [|[k' v'] d' IH]; simpl; [discriminate|].
  destruct (label_eqb k' k) eqn:E.
  - apply label_eqb_eq in E. intro H. inversion H; subst. now left.
  - intro H. right. now apply IH.
Qed.

Lemma dict_get_None (d : list (Label * nat)) (k : Label) :
  dict_get d k = None <-> ~ In k (map fst d).
Proof.
  induction d as [|[k' v'] d' IH]; simpl.
  - split; auto.
  - destruct (label_eqb k' k) eqn:E.
    + apply label_eqb_eq in E. split; [discriminate | intro H; exfalso; apply H; now left].
    + apply label_eqb_neq in E. rewrite IH. split; intro H.
      * intros [G|G]; [now apply E | now apply H].
      * intro G. apply H. now right.
Qed.

Lemma dict_get_NoDup (d : list (Label * nat)) (k : Label) (v : nat) :
  NoDup (map fst d) -> In (k, v) d -> dict_get d k = Some v.
Proof.
  induction d as [|[k' v'] d' IH]; simpl; [intros _ []|].
  intros Hnd Hin. inversion Hnd as [|? ? Hnotin Hnd']; subst.
  destruct Hin as [Heq|Hin].
  - inversion Heq; subst. now rewrite label_eqb_refl.
  - destruct (label_eqb k' k) eqn:E.
    + apply label_eqb_eq in E. subst. exfalso. apply Hnotin.
      change k with (fst (k, v)). now apply in_map.
    + now apply IH.
Qed.

Lemma NoDup_keys_filter (f : Label * nat -> bool) (d : list (Label * nat)) :
  NoDup (map fst d) -> NoDup (map fst (filter f d)).
Proof.
  induction d as [|kv d' IH]; simpl; [auto|].
  intro Hnd. inversion Hnd as [|? ? Hnotin Hnd']; subst.
  destruct (f kv); simpl; [|now apply IH].
  constructor; [|now apply IH].
  intro H. apply Hnotin. apply in_map_iff in H. destruct H as [kv' [Heq Hin]].
  apply filter_In in Hin. rewrite <- Heq. apply in_map. tauto.
Qed.

(** ** The error monad *)

Lemma bind_Ok {A B : Type} (r : result A) (k : A -> result B) (b : B) :
  bind r k = Ok b -> exists a, r = Ok a /\ k a = Ok b.
Proof.
  destruct r as [a|e]; simpl; [|discriminate]. intro H. now exists a.
Qed.

Ltac bind_inv H :=
  let a := fresh "v" in
  let Ha := fresh "E" in
  apply bind_Ok in H; destruct H as [a [Ha H]].

Lemma mapM_ext {A B : Type} (f g : A -> result B) (l : list A) :
  (forall a, In a l -> f a = g a) -> mapM f l = mapM g l.
Proof.
  induction l as [|a l' IH]; simpl; [reflexivity|].
  intro H. rewrite (H a) by now left. rewrite IH; [reflexivity|].
  intros a' Ha'. apply H. now right.
Qed.

(** ** Over-sampling *)

Section Sampling.

Context `{L : Sklearn}.

Lemma not_majority_keys (y : list Label) :
  NoDup (map fst (sampling_strategy_not_majority y)).
Proof.
  unfold sampling_strategy_not_majority.
  destruct (dict_argmax (count_class_sample y)) as [cm|]; [|constructor].
  rewrite map_map. simpl. apply NoDup_keys_filter.
  rewrite count_class_sample_keys. apply np_unique_NoDup.
Qed.

Lemma not_majority_absent (y : list Label) (c : Label) :
  ~ In c y -> dict_get (sampling_strategy_not_majority y) c = None.
Proof.
  intro Hc. apply dict_get_None. intro H. apply Hc.
  unfold sampling_strategy_not_majority in H.
  destruct (dict_argmax (count_class_sample y)) as [cm|]; [|destruct H].
  rewrite map_map in H. simpl in H.
  apply in_map_iff in H. destruct H as [[k v] [Heq Hin]]. simpl in Heq. subst k.
  apply filter_In in Hin. destruct Hin as [Hin _].
  apply count_class_sample_In in Hin. tauto.
Qed.

Lemma count_le_majority (y : list Label) (c : Label) : count y c <= n_majority y.
Proof.
  destruct (in_dec Label_eq_dec c y) as [Hin|Hnot].
  - unfold n_majority. apply list_max_ge.
    change (count y c) with (snd (c, count y c)). apply in_map.
    now apply count_class_sample_In.
  - apply count_zero in Hnot. lia.
Qed.

(** After the strategy is applied, each class of [y] stands at the majority
    count. *)
Lemma not_majority_fills (y : list Label) (c : Label) :
  In c y ->
  count y c + dict_get0 (sampling_strategy_not_majority y) c = n_majority y.
Proof.
  intro Hc. unfold dict_get0.
  pose proof (not_majority_keys y) as Hnd.
  unfold sampling_strategy_not_majority in *.
  destruct (dict_argmax (count_class_sample y)) as [cm|] eqn:Earg.
  - apply dict_argmax_spec in Earg. fold (n_majority y) in *.
    apply count_class_sample_In in Earg. destruct Earg as [Hcm Hmax].
    destruct (Label_eq_dec c cm) as [->|Hne].
    + match goal with |- context [dict_get ?d cm] =>
        assert (dict_get d cm = None) as ->
      end; [|lia].
      apply dict_get_None. rewrite map_map. simpl. intro H.
      apply in_map_iff in H. destruct H as [[k v] [Heq Hin]]. simpl in Heq. subst k.
      apply filter_In in Hin. destruct Hin as [_ Hf]. simpl in Hf.
      rewrite label_eqb_refl in Hf. discriminate.
    + match goal with |- context [dict_get ?d c] =>
        assert (dict_get d c = Some (n_majority y - count y c)) as ->
      end.
      * apply dict_get_NoDup; [exact Hnd|].
        apply in_map_iff. exists (c, count y c). split; [reflexivity|].
        apply filter_In. split; [now apply count_class_sample_In|]. simpl.
        apply negb_true_iff. now apply label_eqb_neq.
      * pose proof (count_le_majority y c). lia.
  - exfalso. destruct (count_class_sample y) as [|kv d] eqn:E; [|discriminate].
    apply (f_equal (map fst)) in E. rewrite count_class_sample_keys in E.
    simpl in E. apply (proj1 (np_unique_nil y)) in E. subst. exact Hc.
Qed.

(** What the loop appends for a class is what its strategy asks for. *)
Lemma SMOTE_make_all_count (w : World) (self : SMOTE) (X : list Row) (y : list Label)
  (strategy : list (Label * nat)) (X_new : list Row) (y_new : list Label) :
  NoDup (map fst strategy) ->
  SMOTE_make_all w self X y strategy = Ok (X_new, y_new) ->
  length X_new = length y_new /\
  forall c, count y_new c = dict_get0 strategy c.
Proof.
  revert X_new y_new.
  induction strategy as [|[cs n] strategy' IH]; intros X_new y_new Hnd H; simpl in H.
  - inversion H; subst. split; [reflexivity|]. intro c. reflexivity.
  - inversion Hnd as [|? ? Hnotin Hnd']; subst.
    assert (forall c, cs = c -> dict_get0 strategy' c = 0) as Hrest.
    { intros c <-. unfold dict_get0.
      assert (dict_get strategy' cs = None) as -> by now apply dict_get_None.
      reflexivity. }
    destruct (Nat.eqb_spec n 0) as [->|Hn].
    + destruct (IH _ _ Hnd' H) as [Hlen Hcount]. split; [exact Hlen|].
      intro c. rewrite Hcount. unfold dict_get0 at 2. simpl.
      destruct (label_eqb cs c) eqn:E; [|reflexivity].
      apply label_eqb_eq in E. now apply Hrest.
    + destruct (length (class_rows X y cs) <? k_neighbors self + 1); [discriminate|].
      bind_inv H. destruct v as [Xs ys]. inversion H; subst; clear H.
      destruct (IH _ _ Hnd' E) as [Hlen Hcount]. split.
      * rewrite !length_app, length_map, length_seq, repeat_length. lia.
      * intro c. rewrite count_app, count_repeat, Hcount.
        unfold dict_get0 at 2. simpl.
        destruct (label_eqb cs c) eqn:Ec; [|reflexivity].
        apply label_eqb_eq in Ec. rewrite (Hrest c Ec). lia.
Qed.

End Sampling.

Section Resampling.

Context `{L : Sklearn}.

Lemma check_consistent_length_Ok (X : list Row) (y : list Label) (u : unit) :
  check_consistent_length X y = Ok u -> length X = length y.
Proof.
  unfold check_consistent_length.
  destruct (Nat.eqb_spec (length X) (length y)); [auto | discriminate].
Qed.

Lemma check_more_than_one_class_Ok (y : list Label) (u : unit) :
  check_more_than_one_class y = Ok u -> 1 < length (np_unique y).
Proof.
  unfold check_more_than_one_class.
  destruct (Nat.leb_spec (length (np_unique y)) 1); [discriminate | auto].
Qed.

(** The stages of a successful [SMOTE.fit_resample]. *)
Lemma SMOTE_fit_resample_Ok (w : World) (self : SMOTE) (X : DataFrame) (y : Series)
  (X1 : Frame) (y1 : list Label) :
  SMOTE_fit_resample w self X y = Ok (X1, y1) ->
  exists X0 y0 X_new y_new,
    series_labels y = Ok y0 /\
    check_array X = Ok X0 /\
    length (frame_rows X0) = length y0 /\
    1 < length (np_unique y0) /\
    SMOTE_make_all w self (frame_rows X0) y0 (sampling_strategy_not_majority y0)
      = Ok (X_new, y_new) /\
    X1 = mkFrame (frame_columns X0) (frame_rows X0 ++ X_new) /\
    y1 = y0 ++ y_new.
Proof.
  unfold SMOTE_fit_resample. intro H.
  bind_inv H. rename v into y0. rename E into Ey.
  bind_inv H. rename v into X0. rename E into EX.
  bind_inv H. apply check_consistent_length_Ok in E. rename E into Elen. clear v.
  bind_inv H. apply check_more_than_one_class_Ok in E. rename E into Ecls. clear v.
  bind_inv H. destruct v as [X_new y_new]. inversion H; subst; clear H.
  exists X0, y0, X_new, y_new. repeat split; auto.
Qed.

Lemma more_than_one_class_nonempty (y : list Label) :
  1 < length (np_unique y) -> y <> [].
Proof.
  intros H ->. simpl in H. lia.
Qed.

(** Over-sampling brings every class of the target to the majority count
    and adds no class. *)
Lemma SMOTE_counts (w : World) (self : SMOTE) (X : DataFrame) (y : Series)
  (X1 : Frame) (y1 y0 : list Label) :
  SMOTE_fit_resample w self X y = Ok (X1, y1) ->
  series_labels y = Ok y0 ->
  y0 <> [] /\
  length (frame_rows X1) = length y1 /\
  (forall c, In c y0 -> count y1 c = n_majority y0) /\
  (forall c, ~ In c y0 -> count y1 c = 0).
Proof.
  intros H Hy.
  apply SMOTE_fit_resample_Ok in H.
  destruct H as [X0 [y0' [X_new [y_new [Ey [EX [Elen [Ecls [Eall [-> ->]]]]]]]]]].
  rewrite Hy in Ey. inversion Ey; subst y0'; clear Ey.
  destruct (SMOTE_make_all_count _ _ _ _ _ _ _ (not_majority_keys y0) Eall) as [Hl Hc].
  split; [now apply more_than_one_class_nonempty|].
  split; [simpl; rewrite !length_app; lia|].
  split; intros c Hin; rewrite count_app, Hc.
  - now apply not_majority_fills.
  - unfold dict_get0. rewrite (not_majority_absent _ _ Hin).
    apply count_zero in Hin. lia.
Qed.

(** ** Under-sampling *)

Lemma remove_nth_length {A : Type} (i : nat) (l : list A) :
  i < length l -> length (remove_nth i l) = pred (length l).
Proof.
  revert i. induction l as [|h t IH]; intros i Hi; simpl in *; [lia|].
  destruct i as [|i']; [reflexivity|]. simpl. rewrite IH by lia.
  destruct t; simpl in *; lia.
Qed.

(** A selection without replacement has the size asked for, as long as the
    population allows. *)
Lemma choice_length {A : Type} (g : RandomState) (pop : list A) (size : nat) :
  length (fst (choice g pop size)) = Nat.min size (length pop).
Proof.
  revert g pop. induction size as [|size' IH]; intros g pop; simpl; [reflexivity|].
  destruct pop as [|a0 pop']; [reflexivity|].
  destruct (rng_below g (length (a0 :: pop'))) as [r g'] eqn:Er.
  set (i := r mod length (a0 :: pop')).
  specialize (IH g' (remove_nth i (a0 :: pop'))).
  destruct (choice g' (remove_nth i (a0 :: pop')) size') as [rest g''] eqn:Ec.
  simpl in IH |- *. rewrite IH.
  assert (i < length (a0 :: pop')) as Hi
    by (apply Nat.mod_upper_bound; simpl; lia).
  pose proof (remove_nth_length i (a0 :: pop') Hi) as Hr. simpl in Hr.
  simpl. rewrite Hr. reflexivity.
Qed.

Lemma class_rows_length (X : list Row) (y : list Label) (c : Label) :
  length X = length y -> length (class_rows X y c) = count y c.
Proof.
  unfold class_rows, count. rewrite length_map.
  revert y. induction X as [|x X' IH]; intros [|d y'] Hlen; simpl in *;
    try reflexivity; try discriminate.
  unfold label_eqb. destruct (Label_eq_dec d c) as [->|Hne]; simpl.
  - rewrite IH by lia. reflexivity.
  - apply IH. lia.
Qed.

Lemma count_tagged (rows : list Row) (d c : Label) :
  count (map snd (map (fun x => (x, d)) rows)) c
  = if label_eqb d c then length rows else 0.
Proof.
  rewrite map_map. simpl.
  replace (map (fun _ : Row => d) rows) with (repeat d (length rows)).
  - apply count_repeat.
  - induction rows as [|x rows' IH]; simpl; [reflexivity | now rewrite IH].
Qed.

Lemma RandomUnderSampler_select_count (g : RandomState) (X : list Row) (y : list Label)
  (strategy : list (Label * nat)) (classes : list Label) (c : Label) :
  NoDup classes ->
  count (map snd (RandomUnderSampler_select g X y strategy classes)) c
  = if in_dec Label_eq_dec c classes then kept_of X y strategy c else 0.
Proof.
  revert g. induction classes as [|tc classes' IH]; intros g Hnd; simpl.
  - reflexivity.
  - inversion Hnd as [|? ? Hnotin Hnd']; subst.
    assert (forall g0,
      count (map snd (RandomUnderSampler_select g0 X y strategy classes')) c
      = if Label_eq_dec tc c then 0 else
          if in_dec Label_eq_dec c classes' then kept_of X y strategy c else 0) as Hrest.
    { intro g0. rewrite (IH g0 Hnd').
      destruct (Label_eq_dec tc c) as [<-|Hne]; [|reflexivity].
      destruct (in_dec Label_eq_dec tc classes'); [contradiction | reflexivity]. }
    assert (forall m, (if label_eqb tc c then m else 0)
                      = if Label_eq_dec tc c then m else 0) as Heqb
      by (intro m; unfold label_eqb; destruct (Label_eq_dec tc c); reflexivity).
    unfold kept_of at 1.
    destruct (dict_get strategy tc) as [n|] eqn:Eget.
    + pose proof (choice_length g (class_rows X y tc) n) as Hlen.
      destruct (choice g (class_rows X y tc) n) as [picked g'] eqn:Ech. simpl in Hlen.
      rewrite map_app, count_app, count_tagged, Hrest, Heqb, Hlen.
      destruct (Label_eq_dec tc c) as [<-|Hne].
      * unfold kept_of. rewrite Eget. lia.
      * destruct (in_dec Label_eq_dec c classes'); reflexivity.
    + rewrite map_app, count_app, count_tagged, Hrest, Heqb.
      destruct (Label_eq_dec tc c) as [<-|Hne].
      * unfold kept_of. rewrite Eget. lia.
      * destruct (in_dec Label_eq_dec c classes'); reflexivity.
Qed.

Lemma count_ge_minority (y : list Label) (c : Label) :
  In c y -> n_minority y <= count y c.
Proof.
  intro Hin. unfold n_minority. apply list_min_le.
  change (count y c) with (snd (c, count y c)). apply in_map.
  now apply count_class_sample_In.
Qed.

(** Under the strategy every class of [y] keeps the minority count. *)
Lemma not_minority_keeps (X : list Row) (y : list Label) (c : Label) :
  length X = length y -> In c y ->
  kept_of X y (sampling_strategy_not_minority y) c = n_minority y.
Proof.
  intros Hlen Hc. unfold kept_of. rewrite (class_rows_length _ _ c Hlen).
  pose proof (count_ge_minority _ _ Hc) as Hge.
  destruct (dict_get (sampling_strategy_not_minority y) c) as [n|] eqn:Eget.
  - apply dict_get_In in Eget. unfold sampling_strategy_not_minority in Eget.
    destruct (dict_argmin (count_class_sample y)) as [cm|]; [|destruct Eget].
    apply in_map_iff in Eget. destruct Eget as [kv [Heq _]].
    inversion Heq; subst. fold (n_minority y). lia.
  - rewrite dict_get_None in Eget.
    unfold sampling_strategy_not_minority in Eget.
    destruct (dict_argmin (count_class_sample y)) as [cm|] eqn:Earg.
    + apply dict_argmin_spec in Earg. fold (n_minority y) in Earg.
      apply count_class_sample_In in Earg. destruct Earg as [Hcm Hmin].
      destruct (Label_eq_dec c cm) as [->|Hne]; [now symmetry|].
      exfalso. apply Eget. rewrite map_map. simpl.
      apply in_map_iff. exists (c, count y c). split; [reflexivity|].
      apply filter_In. split; [now apply count_class_sample_In|]. simpl.
      apply negb_true_iff. now apply label_eqb_neq.
    + exfalso. destruct (count_class_sample y) as [|kv d] eqn:E; [|discriminate].
      apply (f_equal (map fst)) in E. rewrite count_class_sample_keys in E.
      simpl in E. apply (proj1 (np_unique_nil y)) in E. subst. exact Hc.
Qed.

(** Under-sampling cuts every class of the target to the minority count and
    adds no class. *)
Lemma RandomUnderSampler_counts (w : World) (self : RandomUnderSampler)
  (X X2 : Frame) (y y2 : list Label) :
  RandomUnderSampler_fit_resample w self X y = Ok (X2, y2) ->
  length (frame_rows X2) = length y2 /\
  (forall c, In c y -> count y2 c = n_minority y) /\
  (forall c, ~ In c y -> count y2 c = 0).
Proof.
  unfold RandomUnderSampler_fit_resample. intro H.
  bind_inv H. clear v E.
  bind_inv H. apply check_consistent_length_Ok in E. clear v.
  bind_inv H. clear v E0.
  inversion H; subst; clear H.
  split; [simpl; now rewrite !length_map|].
  split; intros c Hc; rewrite (RandomUnderSampler_select_count _ _ _ _ _ c (np_unique_NoDup y)).
  - destruct (in_dec Label_eq_dec c (np_unique y)) as [_|Hn].
    + now apply not_minority_keeps.
    + exfalso. apply Hn. now apply np_unique_In.
  - destruct (in_dec Label_eq_dec c (np_unique y)) as [Hi|_]; [|reflexivity].
    exfalso. apply Hc. now apply np_unique_In.
Qed.

End Resampling.

(** ** Construction *)

Section Construction.

Context `{L : Sklearn}.

Lemma uniform_counts (y : list Label) (n : nat) :
  y <> [] -> (forall c, In c y -> count y c = n) ->
  n_majority y = n /\ n_minority y = n.
Proof.
  intros Hne Hall.
  assert (forall k, In k (map snd (count_class_sample y)) -> k = n) as Hvals.
  { intros k Hk. apply in_map_iff in Hk. destruct Hk as [[c v] [<- Hin]].
    apply count_class_sample_In in Hin. destruct Hin as [Hc ->]. simpl. now apply Hall. }
  assert (map snd (count_class_sample y) <> []) as Hne'.
  { destruct y as [|c y']; [congruence|]. intro H.
    assert (In (count (c :: y') c) (map snd (count_class_sample (c :: y')))) as Hin.
    { change (count (c :: y') c) with (snd (c, count (c :: y') c)). apply in_map.
      apply count_class_sample_In. split; [now left | reflexivity]. }
    rewrite H in Hin. exact Hin. }
  unfold n_majority, n_minority. split.
  - destruct (map snd (count_class_sample y)) as [|k ks] eqn:E; [congruence|].
    apply Nat.le_antisymm.
    + apply list_max_le. rewrite Forall_forall. intros k' Hk'.
      rewrite (Hvals k' Hk'). lia.
    + rewrite <- (Hvals k (or_introl eq_refl)). apply list_max_ge. now left.
  - apply Hvals. now apply list_min_In.
Qed.

(** The stages of a successful construction. *)
Lemma init_Ok (w : World) (df : DataFrame) (m : Machine.t) :
  Machine.__init__ w df = Ok m ->
  exists target features X1 y1 X2 y2 svc,
    DataFrame_getitem df "Rarity" = Ok target /\
    DataFrame_getitems df ["Level"; "Health"; "Energy"; "Sanity"] = Ok features /\
    SMOTE_fit_resample w (SMOTE_new (Some 42%Z)) features target = Ok (X1, y1) /\
    RandomUnderSampler_fit_resample w (mkRandomUnderSampler (Some 42%Z)) X1 y1
      = Ok (X2, y2) /\
    SVC_fit w (mkSVC_params 7 "rbf" (1 # 10) true "ovo" (Some 42%Z)) X2 y2 = Ok svc /\
    m = Machine.mk "Support Vector Machines" svc (SMOTE_new (Some 42%Z))
          (mkRandomUnderSampler (Some 42%Z)) (now w).
Proof.
  unfold Machine.__init__. intro H.
  bind_inv H. rename v into target. rename E into Et.
  bind_inv H. rename v into features. rename E into Ef.
  bind_inv H. destruct v as [X1 y1]. rename E into Eo.
  bind_inv H. destruct v as [X2 y2]. rename E into Eu.
  bind_inv H. rename v into svc. rename E into Es.
  inversion H; subst; clear H.
  exists target, features, X1, y1, X2, y2, svc. repeat split; assumption.
Qed.

(** C1.  Whenever construction succeeds, the table the classifier is fitted
    on is balanced: after SMOTE and the random under-sampling, every class of
    the "Rarity" column has the same number of rows, which is the size of the
    majority class after over-sampling. *)
Theorem resampling_stage_balanced (w : World) (df : DataFrame) (m : Machine.t) :
  Machine.__init__ w df = Ok m ->
  exists target features y0 X1 y1 X2 y2,
    DataFrame_getitem df "Rarity" = Ok target /\
    DataFrame_getitems df ["Level"; "Health"; "Energy"; "Sanity"] = Ok features /\
    series_labels target = Ok y0 /\
    SMOTE_fit_resample w (Machine.oversampling m) features target = Ok (X1, y1) /\
    RandomUnderSampler_fit_resample w (Machine.undersampling m) X1 y1 = Ok (X2, y2) /\
    SVC_fit w (svc_params (Machine.model m)) X2 y2 = Ok (Machine.model m) /\
    (forall c, In c y0 -> count y2 c = n_majority y1) /\
    (forall ci cj, In ci y0 -> In cj y0 -> count y2 ci = count y2 cj).
Proof.
  intro H. apply init_Ok in H.
  destruct H as [target [features [X1 [y1 [X2 [y2 [svc [Et [Ef [Eo [Eu [Es ->]]]]]]]]]]]].
  destruct (SMOTE_fit_resample_Ok _ _ _ _ _ _ Eo) as [X0 [y0 [Xn [yn [Ey _]]]]].
  destruct (SMOTE_counts _ _ _ _ _ _ _ Eo Ey) as [Hne [Hlen [Hin Hout]]].
  destruct (RandomUnderSampler_counts _ _ _ _ _ _ Eu) as [Hlen2 [Hin2 Hout2]].
  assert (forall c, In c y1 <-> In c y0) as Hsame.
  { intro c. split; intro Hc.
    - destruct (in_dec Label_eq_dec c y0) as [Hi|Hn]; [exact Hi|].
      apply Hout in Hn. apply count_pos in Hc. lia.
    - destruct (SMOTE_fit_resample_Ok _ _ _ _ _ _ Eo)
        as [X0' [y0' [Xn' [yn' [Ey' [_ [_ [_ [_ [_ ->]]]]]]]]]].
      rewrite Ey in Ey'. inversion Ey'; subst. apply in_or_app. now left. }
  assert (y1 <> []) as Hne1.
  { destruct y0 as [|c y0']; [congruence|]. intro Hy1.
    assert (In c y1) as Hc by (apply Hsame; now left). rewrite Hy1 in Hc. exact Hc. }
  destruct (uniform_counts y1 (n_majority y0) Hne1) as [Hmaj Hmin].
  { intros c Hc. apply Hin. now apply Hsame. }
  assert (forall c, In c y0 -> count y2 c = n_majority y1) as Hbal.
  { intros c Hc. rewrite Hin2 by now apply Hsame. congruence. }
  exists target, features, y0, X1, y1, X2, y2. simpl.
  repeat split; try assumption.
  - unfold SVC_fit in Es |- *. bind_inv Es.
    destruct (length (np_unique y2) <? 2); [discriminate|].
    inversion Es; subst; clear Es. simpl. rewrite E. reflexivity.
  - intros ci cj Hi Hj. rewrite (Hbal ci Hi), (Hbal cj Hj). reflexivity.
Qed.

(** C9.  Over-sampling keeps every input row, so no class loses a row and the
    output is at least as long as the input; under-sampling adds no row to
    any class. *)
Theorem oversampling_keeps_undersampling_cuts
  (w : World) (over : SMOTE) (under : RandomUnderSampler)
  (X : DataFrame) (y : Series) (X1 Xa X2 : Frame) (y1 ya y2 : list Label) :
  SMOTE_fit_resample w over X y = Ok (X1, y1) ->
  RandomUnderSampler_fit_resample w under Xa ya = Ok (X2, y2) ->
  (exists X0 y0 X_new y_new,
      check_array X = Ok X0 /\ series_labels y = Ok y0 /\
      frame_rows X1 = frame_rows X0 ++ X_new /\ y1 = y0 ++ y_new /\
      length (frame_rows X0) <= length (frame_rows X1) /\
      length y0 <= length y1 /\
      forall c, count y0 c <= count y1 c) /\
  (forall c, count y2 c <= count ya c).
Proof.
  intros Ho Hu. split.
  - destruct (SMOTE_fit_resample_Ok _ _ _ _ _ _ Ho)
      as [X0 [y0 [Xn [yn [Ey [EX [_ [_ [_ [-> ->]]]]]]]]]].
    exists X0, y0, Xn, yn. simpl. repeat split; try assumption.
    + rewrite length_app. lia.
    + rewrite length_app. lia.
    + intro c. rewrite count_app. lia.
  - intro c.
    destruct (RandomUnderSampler_counts _ _ _ _ _ _ Hu) as [_ [Hin Hout]].
    destruct (in_dec Label_eq_dec c ya) as [Hc|Hc].
    + rewrite (Hin c Hc). now apply count_ge_minority.
    + rewrite (Hout c Hc). lia.
Qed.

End Construction.

(** ** What construction depends on *)

Section Dependence.

Context `{L : Sklearn}.

Lemma SMOTE_make_all_seeded (w1 w2 : World) (seed : Z) (k : nat)
  (X : list Row) (y : list Label) (strategy : list (Label * nat)) :
  SMOTE_make_all w1 (mkSMOTE (Some seed) k) X y strategy
  = SMOTE_make_all w2 (mkSMOTE (Some seed) k) X y strategy.
Proof.
  induction strategy as [|[cs n] strategy' IH]; simpl; [reflexivity|].
  rewrite IH. reflexivity.
Qed.

(** With an integer seed the samplers and the classifier never look at the
    global generator. *)
Lemma SMOTE_fit_resample_seeded (w1 w2 : World) (seed : Z) (k : nat)
  (X : DataFrame) (y : Series) :
  SMOTE_fit_resample w1 (mkSMOTE (Some seed) k) X y
  = SMOTE_fit_resample w2 (mkSMOTE (Some seed) k) X y.
Proof.
  unfold SMOTE_fit_resample.
  destruct (series_labels y) as [y_|e]; simpl; [|reflexivity].
  destruct (check_array X) as [X_|e]; simpl; [|reflexivity].
  rewrite (SMOTE_make_all_seeded w1 w2). reflexivity.
Qed.

Lemma RandomUnderSampler_fit_resample_seeded (w1 w2 : World) (seed : Z)
  (X : Frame) (y : list Label) :
  RandomUnderSampler_fit_resample w1 (mkRandomUnderSampler (Some seed)) X y
  = RandomUnderSampler_fit_resample w2 (mkRandomUnderSampler (Some seed)) X y.
Proof. reflexivity. Qed.

Lemma SVC_fit_seeded (w1 w2 : World) (params : SVC_params) (seed : Z)
  (X : Frame) (y : list Label) :
  svc_random_state params = Some seed ->
  SVC_fit w1 params X y = SVC_fit w2 params X y.
Proof.
  intro Hs. unfold SVC_fit, check_random_state. rewrite Hs. reflexivity.
Qed.

(** A prediction is read from the fitted classifier alone. *)
Lemma call_model (m1 m2 : Machine.t) (feature_basis : DataFrame) :
  Machine.model m1 = Machine.model m2 ->
  Machine.__call__ m1 feature_basis = Machine.__call__ m2 feature_basis.
Proof.
  intro H. unfold Machine.__call__. rewrite H. reflexivity.
Qed.

(** Two constructions from one table differ by the timestamp at most. *)
Lemma init_worlds (w1 w2 : World) (df : DataFrame) :
  Machine.__init__ w1 df
  = (m <- Machine.__init__ w2 df ;;
     Ok (Machine.mk (Machine.name m) (Machine.model m) (Machine.oversampling m)
                    (Machine.undersampling m) (now w1))).
Proof.
  unfold Machine.__init__.
  destruct (DataFrame_getitem df "Rarity") as [target|e]; simpl; [|reflexivity].
  destruct (DataFrame_getitems df ["Level"; "Health"; "Energy"; "Sanity"])
    as [features|e]; simpl; [|reflexivity].
  unfold SMOTE_new. rewrite (SMOTE_fit_resample_seeded w1 w2).
  destruct (SMOTE_fit_resample w2 _ features target) as [[X1 y1]|e]; simpl; [|reflexivity].
  rewrite (RandomUnderSampler_fit_resample_seeded w1 w2).
  destruct (RandomUnderSampler_fit_resample w2 _ X1 y1) as [[X2 y2]|e]; simpl;
    [|reflexivity].
  rewrite (SVC_fit_seeded w1 w2 _ 42%Z) by reflexivity.
  destruct (SVC_fit w2 _ X2 y2) as [svc|e]; simpl; reflexivity.
Qed.

(** C4.  Two constructions from the same table, whenever they take place and
    whatever the state of the global generator, fail together or give
    controllers with the same classifier, hence the same prediction for
    every feature row. *)
Theorem construction_deterministic (w1 w2 : World) (df feature_basis : DataFrame) :
  (m <- Machine.__init__ w1 df ;; Machine.__call__ m feature_basis)
  = (m <- Machine.__init__ w2 df ;; Machine.__call__ m feature_basis).
Proof.
  rewrite (init_worlds w1 w2).
  destruct (Machine.__init__ w2 df) as [m|e]; simpl; [|reflexivity].
  apply call_model. reflexivity.
Qed.

(** C10.  Construction reads the table through the columns "Rarity",
    "Level", "Health", "Energy" and "Sanity" only: two tables, each with its
    columns under names of their own, that have the same five columns give
    the same controller, hence the same predictions, whatever other columns
    they hold. *)
Theorem construction_reads_five_columns (w : World) (df1 df2 : DataFrame) :
  NoDup (DataFrame_columns df1) ->
  NoDup (DataFrame_columns df2) ->
  (forall c, In c ["Rarity"; "Level"; "Health"; "Energy"; "Sanity"] ->
             DataFrame_getitem df1 c = DataFrame_getitem df2 c) ->
  Machine.__init__ w df1 = Machine.__init__ w df2 /\
  forall feature_basis,
    (m <- Machine.__init__ w df1 ;; Machine.__call__ m feature_basis)
    = (m <- Machine.__init__ w df2 ;; Machine.__call__ m feature_basis).
Proof.
  intros _ _ Hagree.
  assert (Machine.__init__ w df1 = Machine.__init__ w df2) as Heq.
  { unfold Machine.__init__.
    rewrite (Hagree "Rarity") by (simpl; tauto).
    assert (DataFrame_getitems df1 ["Level"; "Health"; "Energy"; "Sanity"]
            = DataFrame_getitems df2 ["Level"; "Health"; "Energy"; "Sanity"]) as ->.
    { unfold DataFrame_getitems. apply mapM_ext. intros c Hc.
      rewrite (Hagree c) by (simpl in *; tauto). reflexivity. }
    reflexivity. }
  split; [exact Heq|]. intro feature_basis. rewrite Heq. reflexivity.
Qed.

End Dependence.

(** ** Saving and opening *)

Section Persistence.

Context `{L : Sklearn} `{J : @Machine.Joblib L}.

#[local] Arguments Machine.as_nat : simpl never.
#[local] Arguments Machine.rebuild_SVC : simpl never.
#[local] Arguments Machine.rebuild_SMOTE : simpl never.
#[local] Arguments Machine.rebuild_RandomUnderSampler : simpl never.











End Persistence.

(** ** Prediction *)

Section Prediction.

Context `{L : Sklearn}.

Lemma fold_max_spec (xs : list Q) (a : Q) :
  let r := fold_left (fun m v => if Qlt_le_dec m v then v else m) xs a in
  (r = a \/ In r xs) /\ (a <= r)%Q /\ forall p, In p xs -> (p <= r)%Q.
Proof.
  revert a. induction xs as [|x xs' IH]; intro a; simpl.
  - repeat split; [now left | apply Qle_refl | intros p []].
  - destruct (IH (if Qlt_le_dec a x then x else a)) as [H1 [H2 H3]].
    destruct (Qlt_le_dec a x) as [Hlt|Hge].
    + repeat split.
      * destruct H1 as [->|H1]; auto.
      * eapply Qle_trans; [apply Qlt_le_weak, Hlt | exact H2].
      * intros p [<-|Hin]; [exact H2 | now apply H3].
    + repeat split.
      * destruct H1 as [->|H1]; auto.
      * exact H2.
      * intros p [<-|Hin]; [eapply Qle_trans; [exact Hge | exact H2] | now apply H3].
Qed.

(** [max] returns an item of the sequence that no item exceeds. *)
Lemma py_max_spec (xs : list Q) :
  xs <> [] ->
  exists m, py_max xs = Ok m /\ In m xs /\ forall p, In p xs -> (p <= m)%Q.
Proof.
  destruct xs as [|x xs']; [congruence|]. intros _. simpl.
  destruct (fold_max_spec xs' x) as [H1 [H2 H3]].
  eexists. split; [reflexivity|]. split.
  - destruct H1 as [->|H1]; [now left | now right].
  - intros p [<-|Hin]; [exact H2 | now apply H3].
Qed.

Lemma call_first_row (m : Machine.t) (feature_basis : DataFrame) (X : Frame)
  (first : Row) (rest : list Row) :
  SVC_validate (Machine.model m) feature_basis = Ok X ->
  frame_rows X = first :: rest ->
  Machine.__call__ m feature_basis = row_result (Machine.model m) first.
Proof.
  intros Hv Hrows.
  unfold Machine.__call__, SVC_predict, SVC_predict_proba, row_result.
  rewrite Hv. simpl. rewrite Hrows. simpl. reflexivity.
Qed.

(** A weight is at most the sum of the weights. *)
Lemma fold_left_add_le (l : list positive) (a : positive) :
  (a <= fold_left Pos.add l a)%positive /\
  forall w, In w l -> (w <= fold_left Pos.add l a)%positive.
Proof.
  revert a. induction l as [|x l' IH]; intro a; simpl.
  - split; [lia | intros w []].
  - destruct (IH (a + x)%positive) as [H1 H2]. split; [lia|].
    intros w [<-|Hin]; [lia | now apply H2].
Qed.

Lemma normalise_not_empty (ws : positive * list positive) : normalise ws <> [].
Proof. destruct ws as [w0 ws']. unfold normalise. simpl. discriminate. Qed.

(** Shares of a sum lie between 0 and 1. *)
Lemma normalise_range (ws : positive * list positive) (p : Q) :
  In p (normalise ws) -> (0 <= p)%Q /\ (p <= 1)%Q.
Proof.
  destruct ws as [w0 ws']. unfold normalise. cbn [fst snd].
  destruct (fold_left_add_le ws' w0) as [H0 Hrest].
  remember (fold_left Pos.add ws' w0) as total eqn:Et. clear Et.
  intro Hin. apply in_map_iff in Hin as [w [<- Hw]].
  assert (w <= total)%positive as Hle
    by (destruct Hw as [<-|Hw]; [exact H0 | now apply Hrest]).
  unfold Qle. simpl. lia.
Qed.

Lemma mapM_series_floats_numeric (df : DataFrame) :
  forallb (fun c => numeric_in_range (snd c)) df = true ->
  mapM (fun c => series_floats (snd c)) df
  = Ok (map (fun c => Series_numbers (snd c)) df).
Proof.
  induction df as [|[n s] df' IH]; simpl; [reflexivity|].
  intro H. apply andb_true_iff in H as [Hs H'].
  destruct s as [xs|xs]; [|discriminate]. simpl. rewrite (IH H'). reflexivity.
Qed.

(** The classifier accepts a valid input, and the first row of what it
    predicts on is the first row of the table. *)
Lemma SVC_validate_valid (self : SVC) (feature_basis : DataFrame) :
  valid_features (feature_names_in_ self) feature_basis = true ->
  exists rest,
    SVC_validate self feature_basis
    = Ok (mkFrame (DataFrame_columns feature_basis)
                  (DataFrame_first_row feature_basis :: rest)).
Proof.
  unfold valid_features, SVC_validate.
  destruct (list_eq_dec string_dec (DataFrame_columns feature_basis)
              (feature_names_in_ self)) as [_|_]; [|discriminate].
  intro H. apply andb_true_iff in H as [H _]. apply andb_true_iff in H as [Hnum Hlen].
  unfold check_array. rewrite (mapM_series_floats_numeric _ Hnum). simpl.
  apply Nat.ltb_lt in Hlen.
  destruct (DataFrame_len feature_basis) as [|n]; [lia|]. simpl.
  eexists. unfold DataFrame_first_row. rewrite map_map. reflexivity.
Qed.

(** The answer to a valid input. *)
Lemma call_valid (m : Machine.t) (feature_basis : DataFrame) :
  valid_features (feature_names_in_ (Machine.model m)) feature_basis = true ->
  exists confidence,
    Machine.__call__ m feature_basis
    = Ok (libsvm_predict (fitted_ (Machine.model m)) (DataFrame_first_row feature_basis),
          confidence) /\
    In confidence
       (libsvm_predict_proba (fitted_ (Machine.model m)) (DataFrame_first_row feature_basis)) /\
    (forall p,
       In p (libsvm_predict_proba (fitted_ (Machine.model m))
               (DataFrame_first_row feature_basis)) ->
       (p <= confidence)%Q) /\
    (0 <= confidence)%Q /\ (confidence <= 1)%Q.
Proof.
  intro Hv. destruct (SVC_validate_valid _ _ Hv) as [rest Hval].
  rewrite (call_first_row m feature_basis _ _ rest Hval eq_refl).
  unfold row_result.
  destruct (py_max_spec
              (libsvm_predict_proba (fitted_ (Machine.model m))
                 (DataFrame_first_row feature_basis))
              (normalise_not_empty _)) as [c [Hmax [Hin Hle]]].
  exists c. rewrite Hmax. simpl. split; [reflexivity|].
  split; [exact Hin|]. split; [exact Hle|].
  exact (normalise_range _ c Hin).
Qed.

(** Two valid inputs with the same first row get the same answer. *)
Lemma call_same_first_row (m : Machine.t) (a b : DataFrame) :
  valid_features (feature_names_in_ (Machine.model m)) a = true ->
  valid_features (feature_names_in_ (Machine.model m)) b = true ->
  DataFrame_first_row a = DataFrame_first_row b ->
  Machine.__call__ m a = Machine.__call__ m b.
Proof.
  intros Ha Hb Hfirst.
  destruct (SVC_validate_valid _ _ Ha) as [ra Hva].
  destruct (SVC_validate_valid _ _ Hb) as [rb Hvb].
  rewrite (call_first_row m a _ _ ra Hva eq_refl).
  rewrite (call_first_row m b _ _ rb Hvb eq_refl).
  rewrite Hfirst. reflexivity.
Qed.

Lemma Series_len_head (s : Series) :
  Series_len (Series_head s) = Nat.min 1 (Series_len s).
Proof. destruct s as [[|x xs]|[|x xs]]; reflexivity. Qed.

Lemma DataFrame_columns_head (df : DataFrame) :
  DataFrame_columns (DataFrame_head df) = DataFrame_columns df.
Proof.
  unfold DataFrame_columns, DataFrame_head. rewrite map_map. reflexivity.
Qed.

Lemma DataFrame_len_head (df : DataFrame) :
  DataFrame_len (DataFrame_head df) = Nat.min 1 (DataFrame_len df).
Proof.
  destruct df as [|[n s] df']; [reflexivity|]. simpl. apply Series_len_head.
Qed.

Lemma DataFrame_first_row_head (df : DataFrame) :
  DataFrame_first_row (DataFrame_head df) = DataFrame_first_row df.
Proof.
  unfold DataFrame_first_row, DataFrame_head. rewrite map_map.
  apply map_ext. intros [n [[|x xs]|[|x xs]]]; reflexivity.
Qed.

Lemma numeric_in_range_head (s : Series) :
  numeric_in_range s = true -> numeric_in_range (Series_head s) = true.
Proof.
  destruct s as [[|x xs]|xs]; simpl; try (intro; assumption || discriminate).
  intro H. apply andb_true_iff in H as [Hx _]. rewrite Hx. reflexivity.
Qed.

(** The first row of a valid input is a valid input. *)
Lemma valid_features_head (names : list string) (df : DataFrame) :
  valid_features names df = true -> valid_features names (DataFrame_head df) = true.
Proof.
  unfold valid_features. rewrite DataFrame_columns_head.
  destruct (list_eq_dec string_dec (DataFrame_columns df) names) as [_|_]; [|discriminate].
  intro H. apply andb_true_iff in H as [H Hwf]. apply andb_true_iff in H as [Hnum Hlen].
  apply Nat.ltb_lt in Hlen.
  apply andb_true_iff. split; [apply andb_true_iff; split|].
  - unfold DataFrame_head. rewrite forallb_forall in *. intros c Hc.
    apply in_map_iff in Hc as [c0 [<- Hc0]]. simpl.
    apply numeric_in_range_head. exact (Hnum c0 Hc0).
  - apply Nat.ltb_lt. rewrite DataFrame_len_head. lia.
  - unfold DataFrame_wf in *. rewrite DataFrame_len_head.
    unfold DataFrame_head. rewrite forallb_forall in *. intros c Hc.
    apply in_map_iff in Hc as [c0 [<- Hc0]]. simpl.
    rewrite Series_len_head. apply Nat.eqb_eq.
    specialize (Hwf c0 Hc0). apply Nat.eqb_eq in Hwf. rewrite Hwf. reflexivity.
Qed.

(** C8.  A valid batch, of however many rows, is accepted, and what comes
    back is the result of its first row: the label [predict] gives that row,
    with the greatest entry of the probability vector of that row.  The
    table of the first row alone gets the same answer, and so does every
    valid batch that starts with the same row: no row after the first has a
    part in it. *)
Theorem batch_surfaces_first_row (m : Machine.t) (batch : DataFrame) :
  valid_features (feature_names_in_ (Machine.model m)) batch = true ->
  (exists confidence,
     Machine.__call__ m batch
     = Ok (libsvm_predict (fitted_ (Machine.model m)) (DataFrame_first_row batch),
           confidence) /\
     In confidence
        (libsvm_predict_proba (fitted_ (Machine.model m)) (DataFrame_first_row batch)) /\
     forall p,
       In p (libsvm_predict_proba (fitted_ (Machine.model m)) (DataFrame_first_row batch)) ->
       (p <= confidence)%Q) /\
  Machine.__call__ m (DataFrame_head batch) = Machine.__call__ m batch /\
  forall other,
    valid_features (feature_names_in_ (Machine.model m)) other = true ->
    DataFrame_first_row other = DataFrame_first_row batch ->
    Machine.__call__ m other = Machine.__call__ m batch.
Proof.
  intro Hv. split; [|split].
  - destruct (call_valid m batch Hv) as [c [Hcall [Hin [Hle _]]]].
    exists c. split; [exact Hcall|]. split; [exact Hin | exact Hle].
  - apply call_same_first_row; [apply valid_features_head; exact Hv | exact Hv |].
    apply DataFrame_first_row_head.
  - intros other Ho Hfirst. apply call_same_first_row; assumption.
Qed.


End Prediction.

(** ** Failures of construction *)

Section Failures.

Context `{L : Sklearn}.

Lemma mapM_Raise {A B : Type} (f : A -> result B) (l : list A) (e : exn) :
  mapM f l = Raise e -> exists a, In a l /\ f a = Raise e.
Proof.
  induction l as [|a l' IH]; simpl; [discriminate|].
  destruct (f a) as [b|e'] eqn:Ea; simpl.
  - destruct (mapM f l') as [bs|e'']; simpl; [discriminate|].
    intro H. inversion H; subst. destruct (IH eq_refl) as [a' [Hin Ha']].
    exists a'. split; [now right | exact Ha'].
  - intro H. inversion H; subst. exists a. split; [now left | exact Ea].
Qed.

Lemma DataFrame_getitem_In (df : DataFrame) (c : string) (s : Series) :
  DataFrame_getitem df c = Ok s -> In (c, s) df.
Proof.
  induction df as [|[c' s'] df' IH]; simpl; [discriminate|].
  destruct (String.eqb c' c) eqn:E.
  - apply String.eqb_eq in E. intro H. inversion H; subst. now left.
  - intro H. right. now apply IH.
Qed.

Lemma DataFrame_getitem_present (df : DataFrame) (c : string) :
  existsb (String.eqb c) (DataFrame_columns df) = true ->
  exists s, DataFrame_getitem df c = Ok s.
Proof.
  induction df as [|[c' s'] df' IH]; simpl; [discriminate|].
  rewrite (String.eqb_sym c c').
  destruct (String.eqb c' c); simpl; [intros _; now exists s' | exact IH].
Qed.

Lemma DataFrame_getitem_missing (df : DataFrame) (c : string) :
  existsb (String.eqb c) (DataFrame_columns df) = false ->
  DataFrame_getitem df c = Raise (KeyError c).
Proof.
  induction df as [|[c' s'] df' IH]; simpl; [reflexivity|].
  rewrite (String.eqb_sym c c').
  destruct (String.eqb c' c); simpl; [discriminate | exact IH].
Qed.

(** A lookup that fails fails with [KeyError]. *)
Lemma DataFrame_getitem_Raise (df : DataFrame) (c : string) (e : exn) :
  DataFrame_getitem df c = Raise e -> e = KeyError c.
Proof.
  induction df as [|[c' s'] df' IH]; simpl.
  - intro H. now inversion H.
  - destruct (String.eqb c' c); [discriminate | exact IH].
Qed.

Lemma DataFrame_getitems_Raise (df : DataFrame) (names : list string) (e : exn) :
  DataFrame_getitems df names = Raise e -> exists k, In k names /\ e = KeyError k.
Proof.
  unfold DataFrame_getitems. intro H.
  apply mapM_Raise in H. destruct H as [k [Hin Hk]]. exists k. split; [exact Hin|].
  destruct (DataFrame_getitem df k) as [s|e'] eqn:E; simpl in Hk; [discriminate|].
  inversion Hk; subst. now apply DataFrame_getitem_Raise in E.
Qed.

Lemma series_floats_Raise (s : Series) (e : exn) :
  series_floats s = Raise e -> exn_class e = "ValueError".
Proof.
  destruct s as [xs|xs]; simpl; [discriminate|]. intro H.
  apply mapM_Raise in H. destruct H as [t [_ Ht]].
  destruct (float_of_str t); [discriminate|]. now inversion Ht.
Qed.

Lemma check_array_Raise (X : DataFrame) (e : exn) :
  check_array X = Raise e -> exn_class e = "ValueError".
Proof.
  unfold check_array.
  destruct (mapM (fun c => series_floats (snd c)) X) as [cols|e'] eqn:E; simpl.
  - destruct (DataFrame_len X =? 0); [|discriminate]. intro H. now inversion H.
  - intro H. inversion H; subst. apply mapM_Raise in E.
    destruct E as [c [_ Hc]]. now apply series_floats_Raise in Hc.
Qed.





End Failures.

Section FailureCases.

Context `{L : Sklearn}.

#[local] Arguments String.eqb : simpl never.

Lemma DataFrame_getitems_missing (df : DataFrame) (names : list string) :
  has_columns df names = false ->
  exists k, In k names /\ DataFrame_getitems df names = Raise (KeyError k).
Proof.
  unfold has_columns, DataFrame_getitems.
  induction names as [|n ns IH]; simpl; [discriminate|].
  destruct (existsb (String.eqb n) (DataFrame_columns df)) eqn:En; simpl.
  - intro H. destruct (IH H) as [k [Hin Hk]].
    destruct (DataFrame_getitem_present df n En) as [s Hs].
    exists k. split; [now right|]. rewrite Hs. simpl. rewrite Hk. reflexivity.
  - intros _. exists n. split; [now left|].
    rewrite (DataFrame_getitem_missing df n En). reflexivity.
Qed.

Lemma DataFrame_wf_In (df : DataFrame) (c : string) (s : Series) :
  DataFrame_wf df = true -> In (c, s) df -> Series_len s = DataFrame_len df.
Proof.
  unfold DataFrame_wf. intros Hwf Hin.
  rewrite forallb_forall in Hwf. specialize (Hwf _ Hin).
  now apply Nat.eqb_eq in Hwf.
Qed.

Lemma empty_series_labels (s : Series) : Series_len s = 0 -> series_labels s = Ok [].
Proof.
  destruct s as [[|x xs]|[|x xs]]; simpl; intro H; try discriminate; reflexivity.
Qed.

Lemma empty_series_floats (s : Series) : Series_len s = 0 -> series_floats s = Ok [].
Proof.
  destruct s as [[|x xs]|[|x xs]]; simpl; intro H; try discriminate; reflexivity.
Qed.

(** C5, as the code has it.  Construction from an empty table, or from a
    table that lacks "Rarity" or one of the four feature columns, fails and
    leaves no controller.  What is raised is the [KeyError] of the column
    lookup when a column is missing, and the [ValueError] of the
    over-sampler's input validation when the five columns are there and
    hold no row. *)
Theorem construction_fails_on_empty_or_incomplete (w : World) (df : DataFrame) :
  DataFrame_wf df = true ->
  DataFrame_len df = 0 \/
    has_columns df ["Rarity"; "Level"; "Health"; "Energy"; "Sanity"] = false ->
  exists e,
    Machine.__init__ w df = Raise e /\
    exn_class e
    = if has_columns df ["Rarity"; "Level"; "Health"; "Energy"; "Sanity"]
      then "ValueError" else "KeyError".
Proof.
  intros Hwf Hcase.
  destruct (has_columns df ["Rarity"; "Level"; "Health"; "Energy"; "Sanity"]) eqn:Ecols.
  - destruct Hcase as [Hlen|Habs]; [|discriminate].
    unfold has_columns in Ecols. simpl in Ecols.
    repeat (apply andb_prop in Ecols; let H := fresh "P" in destruct Ecols as [H Ecols]).
    destruct (DataFrame_getitem_present df _ P) as [target Ht].
    destruct (DataFrame_getitem_present df _ P0) as [s1 H1].
    destruct (DataFrame_getitem_present df _ P1) as [s2 H2].
    destruct (DataFrame_getitem_present df _ P2) as [s3 H3].
    destruct (DataFrame_getitem_present df _ P3) as [s4 H4].
    pose proof (DataFrame_wf_In _ _ _ Hwf (DataFrame_getitem_In _ _ _ Ht)) as Lt.
    pose proof (DataFrame_wf_In _ _ _ Hwf (DataFrame_getitem_In _ _ _ H1)) as L1.
    pose proof (DataFrame_wf_In _ _ _ Hwf (DataFrame_getitem_In _ _ _ H2)) as L2.
    pose proof (DataFrame_wf_In _ _ _ Hwf (DataFrame_getitem_In _ _ _ H3)) as L3.
    pose proof (DataFrame_wf_In _ _ _ Hwf (DataFrame_getitem_In _ _ _ H4)) as L4.
    rewrite Hlen in Lt, L1, L2, L3, L4.
    eexists. split.
    { unfold Machine.__init__, DataFrame_getitems. simpl.
      rewrite Ht, H1, H2, H3, H4. simpl.
      unfold SMOTE_fit_resample, check_array. simpl.
      rewrite (empty_series_labels _ Lt), (empty_series_floats _ L1),
        (empty_series_floats _ L2), (empty_series_floats _ L3),
        (empty_series_floats _ L4). simpl.
      rewrite L1. simpl. reflexivity. }
    reflexivity.
  - unfold has_columns in Ecols. simpl in Ecols.
    destruct (existsb (String.eqb "Rarity") (DataFrame_columns df)) eqn:Er.
    + simpl in Ecols.
      destruct (DataFrame_getitems_missing df ["Level"; "Health"; "Energy"; "Sanity"])
        as [k [_ Hk]]; [exact Ecols|].
      destruct (DataFrame_getitem_present df _ Er) as [target Ht].
      exists (KeyError k). split; [|reflexivity].
      unfold Machine.__init__. rewrite Ht. simpl. rewrite Hk. reflexivity.
    + exists (KeyError "Rarity"). split; [|reflexivity].
      unfold Machine.__init__.
      rewrite (DataFrame_getitem_missing df _ Er). reflexivity.
Qed.



End FailureCases.

(** ** The record store *)

Section Store.

Context `{M : Database.MonsterLab}.

Lemma monsters_length (turns : nat) (r : Database.PyRandom) :
  length (fst (Database.monsters turns r)) = turns.
Proof.
  revert r. induction turns as [|turns' IH]; intro r; simpl; [reflexivity|].
  destruct (Database.Monster_to_dict r) as [d r'].
  specialize (IH r'). destruct (Database.monsters turns' r') as [ds r''].
  simpl in *. now rewrite IH.
Qed.

Lemma assign_ids_length (docs : list Database.Document) (ids : Database.ObjectIds) :
  length (fst (Database.assign_ids docs ids)) = length docs.
Proof.
  revert ids. induction docs as [|d docs' IH]; intro ids; simpl; [reflexivity|].
  destruct (Database.with_id ids d) as [d' ids'].
  specialize (IH ids'). destruct (Database.assign_ids docs' ids') as [ds ids''].
  simpl in *. now rewrite IH.
Qed.

Lemma seed_positive (self : Database.t) (amount : Z) (s : Database.State) :
  (0 < amount)%Z ->
  exists stored s',
    Database.seed self amount s = (Database.Return (Database.write_acknowledged s), s') /\
    length stored = Z.to_nat amount /\
    Database.collections s' (Database.collection self)
      = Database.collections s (Database.collection self) ++ stored /\
    Database.count self s' = Database.count self s + Z.to_nat amount /\
    forall other,
      Database.collection other <> Database.collection self ->
      Database.collections s' (Database.collection other)
      = Database.collections s (Database.collection other).
Proof.
  intro Hpos. unfold Database.seed.
  pose proof (monsters_length (Z.to_nat amount) (Database.py_random s)) as Hlen.
  destruct (Database.monsters (Z.to_nat amount) (Database.py_random s)) as [ms r].
  simpl in Hlen. unfold Database.insert_many.
  destruct ms as [|m0 ms'].
  { simpl in Hlen. lia. }
  cbn [Database.object_ids Database.collections Database.write_acknowledged].
  pose proof (assign_ids_length (m0 :: ms') (Database.object_ids s)) as Hids.
  destruct (Database.assign_ids (m0 :: ms') (Database.object_ids s)) as [stored ids].
  simpl fst in Hids.
  exists stored. eexists. split; [reflexivity|].
  split; [congruence|]. unfold Database.count. simpl.
  rewrite String.eqb_refl. split; [reflexivity|].
  split; [rewrite length_app; lia|].
  intros other Hne. apply String.eqb_neq in Hne. now rewrite Hne.
Qed.

(** Seeding a positive number of monsters returns the acknowledgement of
    the write and adds that many documents after those the collection held;
    no other collection changes. *)
Theorem seed_appends (self : Database.t) (amount : Z) (s : Database.State) :
  (0 < amount)%Z ->
  exists stored s',
    Database.seed self amount s = (Database.Return (Database.write_acknowledged s), s') /\
    length stored = Z.to_nat amount /\
    Database.collections s' (Database.collection self)
      = Database.collections s (Database.collection self) ++ stored /\
    Database.count self s' = Database.count self s + Z.to_nat amount /\
    forall other,
      Database.collection other <> Database.collection self ->
      Database.collections s' (Database.collection other)
      = Database.collections s (Database.collection other).
Proof. exact (seed_positive self amount s). Qed.

(** Seeding nothing, or a negative number of monsters, is refused by the
    driver with a [TypeError], and store and generators stay as they were. *)
Theorem seed_nothing_raises (self : Database.t) (amount : Z) (s : Database.State) :
  (amount <= 0)%Z ->
  Database.seed self amount s
  = (Database.RaiseTypeError "documents must be a non-empty list", s).
Proof.
  intro Hle. unfold Database.seed.
  replace (Z.to_nat amount) with 0 by lia. simpl.
  destruct s. reflexivity.
Qed.

Lemma reset_state (self : Database.t) (s : Database.State) :
  let (res, s') := Database.reset self s in
  Database.count self s' = 0 /\
  Database.deleted_count res = Database.count self s /\
  Database.deleted_count (fst (Database.reset self s')) = 0 /\
  forall other,
    Database.collection other <> Database.collection self ->
    Database.collections s' (Database.collection other)
    = Database.collections s (Database.collection other).
Proof.
  unfold Database.reset, Database.delete_many_all, Database.count. simpl.
  rewrite String.eqb_refl. repeat split.
  intros other Hne. apply String.eqb_neq in Hne. now rewrite Hne.
Qed.


(** What the module does when run as a script: after a reset and a seed of
    [amount] monsters, the count is [amount]. *)
Theorem reset_seed_count (self : Database.t) (amount : Z) (s : Database.State) :
  (0 < amount)%Z ->
  Database.count self (snd (Database.seed self amount (snd (Database.reset self s))))
  = Z.to_nat amount.
Proof.
  intro Hpos.
  pose proof (reset_state self s) as Hr.
  destruct (Database.reset self s) as [res s0]. destruct Hr as [Hzero _]. simpl.
  destruct (seed_positive self amount s0 Hpos) as [stored [s1 [Hseed [_ [_ [Hcount _]]]]]].
  rewrite Hseed. simpl. rewrite Hcount, Hzero. reflexivity.
Qed.

End Store.

(** ** The controller after construction *)

Section Controller.

Context `{L : Sklearn}.

Lemma DataFrame_getitems_columns (df : DataFrame) (names : list string)
  (features : DataFrame) :
  DataFrame_getitems df names = Ok features ->
  DataFrame_columns features = names /\
  forall c s, In (c, s) features -> In (c, s) df.
Proof.
  unfold DataFrame_getitems, DataFrame_columns.
  revert features. induction names as [|n ns IH]; intros features H; simpl in H.
  - inversion H; subst. split; [reflexivity | intros c s []].
  - bind_inv H. destruct v as [n' s']. bind_inv H. inversion H; subst; clear H.
    bind_inv E. inversion E; subst; clear E.
    destruct (IH _ E0) as [Hcols Hin]. simpl. split; [now rewrite Hcols|].
    intros c s [Heq|Hc].
    + inversion Heq; subst. now apply DataFrame_getitem_In.
    + now apply Hin.
Qed.

Lemma check_array_columns (X : DataFrame) (X_ : Frame) :
  check_array X = Ok X_ -> frame_columns X_ = DataFrame_columns X.
Proof.
  unfold check_array. intro H. bind_inv H.
  destruct (DataFrame_len X =? 0); [discriminate|]. now inversion H.
Qed.

Lemma n_majority_pos (y : list Label) : y <> [] -> 0 < n_majority y.
Proof.
  destruct y as [|c y']; [congruence|]. intros _.
  pose proof (count_le_majority (c :: y') c) as Hle.
  assert (0 < count (c :: y') c) as Hpos by (apply count_pos; now left).
  lia.
Qed.

Lemma n_minority_pos (y : list Label) : y <> [] -> 0 < n_minority y.
Proof.
  intro Hne. unfold n_minority.
  assert (map snd (count_class_sample y) <> []) as Hne'.
  { destruct y as [|c y']; [congruence|]. intro H.
    assert (In (count (c :: y') c) (map snd (count_class_sample (c :: y')))) as Hin.
    { change (count (c :: y') c) with (snd (c, count (c :: y') c)). apply in_map.
      apply count_class_sample_In. split; [now left | reflexivity]. }
    rewrite H in Hin. exact Hin. }
  pose proof (list_min_In _ Hne') as Hin.
  apply in_map_iff in Hin. destruct Hin as [[c n] [Hn Hin]].
  apply count_class_sample_In in Hin. destruct Hin as [Hc ->].
  simpl in Hn. rewrite <- Hn. now apply count_pos.
Qed.

(** Two lists of labels with the same members have as many classes. *)
Lemma np_unique_same_length (y y' : list Label) :
  (forall c, In c y <-> In c y') -> length (np_unique y) = length (np_unique y').
Proof.
  intro H. apply Permutation_length.
  apply NoDup_Permutation; try apply np_unique_NoDup.
  intro c. rewrite !np_unique_In. apply H.
Qed.

(** Over-sampling neither adds nor loses a class. *)
Lemma SMOTE_classes (w : World) (self : SMOTE) (X : DataFrame) (y : Series)
  (X1 : Frame) (y1 y0 : list Label) :
  SMOTE_fit_resample w self X y = Ok (X1, y1) ->
  series_labels y = Ok y0 ->
  forall c, In c y1 <-> In c y0.
Proof.
  intros H Hy c.
  destruct (SMOTE_counts _ _ _ _ _ _ _ H Hy) as [Hne [_ [Hin Hout]]].
  rewrite (count_pos y1 c). split; intro Hc.
  - destruct (in_dec Label_eq_dec c y0) as [Hi|Hn]; [exact Hi|].
    rewrite (Hout c Hn) in Hc. lia.
  - rewrite (Hin c Hc). now apply n_majority_pos.
Qed.

(** Under-sampling neither adds nor loses a class. *)
Lemma RandomUnderSampler_classes (w : World) (self : RandomUnderSampler)
  (X X2 : Frame) (y y2 : list Label) :
  RandomUnderSampler_fit_resample w self X y = Ok (X2, y2) ->
  forall c, In c y2 <-> In c y.
Proof.
  intros H c.
  destruct (RandomUnderSampler_counts _ _ _ _ _ _ H) as [_ [Hin Hout]].
  rewrite (count_pos y2 c). split; intro Hc.
  - destruct (in_dec Label_eq_dec c y) as [Hi|Hn]; [exact Hi|].
    rewrite (Hout c Hn) in Hc. lia.
  - rewrite (Hin c Hc). apply n_minority_pos. intro Hy. subst. exact Hc.
Qed.

Lemma RandomUnderSampler_columns (w : World) (self : RandomUnderSampler)
  (X X2 : Frame) (y y2 : list Label) :
  RandomUnderSampler_fit_resample w self X y = Ok (X2, y2) ->
  frame_columns X2 = frame_columns X.
Proof.
  unfold RandomUnderSampler_fit_resample. intro H.
  bind_inv H. bind_inv H. bind_inv H. now inversion H.
Qed.

(** What a controller says of itself is the fixed name of the model and the
    time of its construction. *)
Theorem info_after_construction (w : World) (df : DataFrame) (m : Machine.t) :
  Machine.__init__ w df = Ok m ->
  Machine.info m
  = ("Base Model:Support Vector Machines<br>Timestamp:" ++ now w)%string.
Proof.
  intro H. apply init_Ok in H.
  destruct H as [target [features [X1 [y1 [X2 [y2 [svc [_ [_ [_ [_ [_ ->]]]]]]]]]]]].
  reflexivity.
Qed.

(** The classifier of a controller was fitted with the fixed
    hyper-parameters, on the four feature columns in the order the
    constructor names them, and its classes are the labels of the "Rarity"
    column, each once: resampling adds no class and loses none. *)
Theorem fitted_classifier_attributes (w : World) (df : DataFrame) (m : Machine.t) :
  Machine.__init__ w df = Ok m ->
  exists target y0,
    DataFrame_getitem df "Rarity" = Ok target /\
    series_labels target = Ok y0 /\
    svc_params (Machine.model m)
      = mkSVC_params 7 "rbf" (1 # 10) true "ovo" (Some 42%Z) /\
    feature_names_in_ (Machine.model m) = ["Level"; "Health"; "Energy"; "Sanity"] /\
    NoDup (classes_ (Machine.model m)) /\
    (forall c, In c (classes_ (Machine.model m)) <-> In c y0) /\
    2 <= length (classes_ (Machine.model m)).
Proof.
  intro H. apply init_Ok in H.
  destruct H as [target [features [X1 [y1 [X2 [y2 [svc [Et [Ef [Eo [Eu [Es ->]]]]]]]]]]]].
  destruct (SMOTE_fit_resample_Ok _ _ _ _ _ _ Eo)
    as [X0 [y0 [Xn [yn [Ey [EX [_ [Hcls [_ [HX1 _]]]]]]]]]].
  pose proof (SMOTE_classes _ _ _ _ _ _ _ Eo Ey) as Hc1.
  pose proof (RandomUnderSampler_classes _ _ _ _ _ _ Eu) as Hc2.
  pose proof (RandomUnderSampler_columns _ _ _ _ _ _ Eu) as Hcol2.
  destruct (DataFrame_getitems_columns _ _ _ Ef) as [Hcols _].
  apply check_array_columns in EX.
  unfold SVC_fit in Es. bind_inv Es.
  destruct (length (np_unique y2) <? 2); [discriminate|].
  inversion Es; subst svc; clear Es. simpl.
  exists target, y0. repeat split; try assumption.
  - rewrite Hcol2, HX1. simpl. congruence.
  - apply np_unique_NoDup.
  - intro Hc. apply (proj1 (np_unique_In _ _)) in Hc.
    apply (proj1 (Hc1 c)). now apply (proj1 (Hc2 c)).
  - intro Hc. apply (proj2 (np_unique_In _ _)).
    apply (proj2 (Hc2 c)). now apply (proj2 (Hc1 c)).
  - rewrite (np_unique_same_length y2 y0); [lia|].
    intro c. rewrite Hc2. apply Hc1.
Qed.

End Controller.

(** ** Outcomes of a call *)

Section Calls.

Context `{L : Sklearn}.

Lemma check_array_rows (X : DataFrame) (X_ : Frame) :
  check_array X = Ok X_ -> frame_rows X_ <> [].
Proof.
  unfold check_array. intro H. bind_inv H.
  destruct (DataFrame_len X) as [|n]; [discriminate|].
  inversion H; subst. simpl. discriminate.
Qed.

Lemma SVC_validate_rows (self : SVC) (X : DataFrame) (X_ : Frame) :
  SVC_validate self X = Ok X_ -> frame_rows X_ <> [].
Proof.
  unfold SVC_validate.
  destruct (list_eq_dec string_dec (DataFrame_columns X) (feature_names_in_ self));
    [apply check_array_rows | discriminate].
Qed.

Lemma SVC_validate_Raise (self : SVC) (X : DataFrame) (e : exn) :
  SVC_validate self X = Raise e -> exn_class e = "ValueError".
Proof.
  unfold SVC_validate.
  destruct (list_eq_dec string_dec (DataFrame_columns X) (feature_names_in_ self)).
  - apply check_array_Raise.
  - intro H. now inversion H.
Qed.

Lemma call_invalid (m : Machine.t) (feature_basis : DataFrame) (e : exn) :
  SVC_validate (Machine.model m) feature_basis = Raise e ->
  Machine.__call__ m feature_basis = Raise e.
Proof.
  intro H. unfold Machine.__call__, SVC_predict. rewrite H. reflexivity.
Qed.

(** A feature table without rows is refused: the call raises a
    [ValueError] and gives no prediction. *)
Theorem call_on_empty_table (m : Machine.t) (feature_basis : DataFrame) :
  DataFrame_len feature_basis = 0 ->
  exists e, Machine.__call__ m feature_basis = Raise e /\ exn_class e = "ValueError".
Proof.
  intro Hlen.
  destruct (SVC_validate (Machine.model m) feature_basis) as [X|e] eqn:Ev.
  - exfalso. unfold SVC_validate in Ev.
    destruct (list_eq_dec string_dec (DataFrame_columns feature_basis)
                (feature_names_in_ (Machine.model m))); [|discriminate].
    unfold check_array in Ev.
    destruct (mapM (fun c => series_floats (snd c)) feature_basis); simpl in Ev;
      [|discriminate].
    rewrite Hlen in Ev. discriminate.
  - exists e. split; [now apply call_invalid | now apply SVC_validate_Raise in Ev].
Qed.

(** Whatever a call returns was read off the first row of the validated
    table: the label is libsvm's decision for that row, and the confidence
    is an entry of its probability vector that no entry exceeds. *)
Theorem call_returns_first_row_result (m : Machine.t) (feature_basis : DataFrame)
  (label : Label) (confidence : Q) :
  Machine.__call__ m feature_basis = Ok (label, confidence) ->
  exists X first rest,
    SVC_validate (Machine.model m) feature_basis = Ok X /\
    frame_rows X = first :: rest /\
    label = libsvm_predict (fitted_ (Machine.model m)) first /\
    In confidence (libsvm_predict_proba (fitted_ (Machine.model m)) first) /\
    forall p, In p (libsvm_predict_proba (fitted_ (Machine.model m)) first) ->
              (p <= confidence)%Q.
Proof.
  intro H.
  destruct (SVC_validate (Machine.model m) feature_basis) as [X|e] eqn:Ev.
  2:{ rewrite (call_invalid m feature_basis e Ev) in H. discriminate. }
  pose proof (SVC_validate_rows _ _ _ Ev) as Hrows.
  destruct (frame_rows X) as [|first rest] eqn:Er; [congruence|].
  rewrite (call_first_row m feature_basis X first rest Ev Er) in H.
  unfold row_result in H.
  destruct (libsvm_predict_proba (fitted_ (Machine.model m)) first) as [|p ps] eqn:Ep;
    [discriminate|].
  destruct (py_max_spec (p :: ps)) as [c [Hmax [Hin Hle]]]; [discriminate|].
  rewrite Hmax in H. simpl in H. inversion H; subst.
  exists X, first, rest.
  split; [reflexivity|]. split; [exact Er|]. split; [reflexivity|].
  rewrite Ep. split; [exact Hin | exact Hle].
Qed.

End Calls.

(** ** When construction succeeds *)

Section Success.

Context `{L : Sklearn}.

Lemma not_majority_entries (y : list Label) (c : Label) (n : nat) :
  In (c, n) (sampling_strategy_not_majority y) ->
  In c y /\ n = n_majority y - count y c.
Proof.
  unfold sampling_strategy_not_majority. fold (n_majority y).
  destruct (dict_argmax (count_class_sample y)) as [cm|]; [|intros []].
  intro H. apply in_map_iff in H. destruct H as [[k v] [Heq Hin]].
  simpl in Heq. inversion Heq; subst; clear Heq.
  apply filter_In in Hin. destruct Hin as [Hin _].
  apply count_class_sample_In in Hin. destruct Hin as [Hc ->]. now split.
Qed.

(** The loop of the over-sampler goes through when every class that needs
    rows has more rows than neighbours are asked for. *)
Lemma SMOTE_make_all_total (w : World) (self : SMOTE) (X : list Row) (y : list Label)
  (strategy : list (Label * nat)) :
  (forall c n, In (c, n) strategy -> n <> 0 ->
               k_neighbors self < length (class_rows X y c)) ->
  exists r, SMOTE_make_all w self X y strategy = Ok r.
Proof.
  induction strategy as [|[cs n] strategy' IH]; intro H; simpl.
  - eexists. reflexivity.
  - destruct IH as [[Xs ys] Hrest].
    { intros c n' Hin Hn. apply (H c n'); [now right | exact Hn]. }
    destruct (Nat.eqb_spec n 0) as [->|Hn]; [eexists; exact Hrest|].
    specialize (H cs n (or_introl eq_refl) Hn).
    destruct (Nat.ltb_spec (length (class_rows X y cs)) (k_neighbors self + 1));
      [lia|].
    rewrite Hrest. simpl. eexists. reflexivity.
Qed.

(** Once over-sampling has succeeded, neither under-sampling nor fitting can
    fail. *)
Lemma after_oversampling (w : World) (over : SMOTE) (under : RandomUnderSampler)
  (params : SVC_params) (X : DataFrame) (y : Series) (X1 : Frame) (y1 : list Label) :
  SMOTE_fit_resample w over X y = Ok (X1, y1) ->
  exists X2 y2 svc,
    RandomUnderSampler_fit_resample w under X1 y1 = Ok (X2, y2) /\
    SVC_fit w params X2 y2 = Ok svc.
Proof.
  intro Ho.
  destruct (SMOTE_fit_resample_Ok _ _ _ _ _ _ Ho)
    as [X0 [y0 [Xn [yn [Ey [EX [Hlen0 [Hcls _]]]]]]]].
  destruct (SMOTE_counts _ _ _ _ _ _ _ Ho Ey) as [Hne [Hlen1 _]].
  pose proof (SMOTE_classes _ _ _ _ _ _ _ Ho Ey) as Hc1.
  assert (1 < length (np_unique y1)) as Hcls1
    by (rewrite (np_unique_same_length y1 y0 Hc1); exact Hcls).
  assert (y1 <> []) as Hne1 by now apply more_than_one_class_nonempty.
  assert (exists r, RandomUnderSampler_fit_resample w under X1 y1 = Ok r) as [[X2 y2] Hu].
  { unfold RandomUnderSampler_fit_resample, check_consistent_length,
      check_more_than_one_class.
    destruct (Nat.eqb_spec (length (frame_rows X1)) 0) as [Hz|_].
    { destruct y1; [congruence | simpl in Hlen1; lia]. }
    rewrite Hlen1, Nat.eqb_refl.
    destruct (Nat.leb_spec (length (np_unique y1)) 1); [lia|].
    simpl. eexists. reflexivity. }
  exists X2, y2.
  destruct (RandomUnderSampler_counts _ _ _ _ _ _ Hu) as [Hlen2 _].
  pose proof (RandomUnderSampler_classes _ _ _ _ _ _ Hu) as Hc2.
  unfold SVC_fit, check_consistent_length. rewrite Hlen2, Nat.eqb_refl. simpl.
  rewrite (np_unique_same_length y2 y1 Hc2).
  destruct (Nat.ltb_spec (length (np_unique y1)) 2); [lia|].
  eexists. split; [exact Hu | reflexivity].
Qed.

(** In the constructor the steps after over-sampling always go through:
    whatever table of moderate numbers its over-sampler has accepted, its
    under-sampler accepts the outcome and its classifier, with the
    hyper-parameters it is given there, is fitted on what is left. *)
Theorem oversampled_table_is_fitted (w : World) (X : DataFrame) (y : Series)
  (X1 : Frame) (y1 : list Label) :
  forallb (fun c => numeric_moderate (snd c)) X = true ->
  SMOTE_fit_resample w (SMOTE_new (Some 42%Z)) X y = Ok (X1, y1) ->
  exists X2 y2 svc,
    RandomUnderSampler_fit_resample w (mkRandomUnderSampler (Some 42%Z)) X1 y1
    = Ok (X2, y2) /\
    SVC_fit w (mkSVC_params 7 "rbf" (1 # 10) true "ovo" (Some 42%Z)) X2 y2 = Ok svc.
Proof.
  intros _.
  exact (after_oversampling w (SMOTE_new (Some 42%Z)) (mkRandomUnderSampler (Some 42%Z))
           (mkSVC_params 7 "rbf" (1 # 10) true "ovo" (Some 42%Z)) X y X1 y1).
Qed.

Lemma init_of_oversampled (w : World) (df : DataFrame) (target : Series)
  (features : DataFrame) (X1 : Frame) (y1 : list Label) :
  DataFrame_getitem df "Rarity" = Ok target ->
  DataFrame_getitems df ["Level"; "Health"; "Energy"; "Sanity"] = Ok features ->
  SMOTE_fit_resample w (SMOTE_new (Some 42%Z)) features target = Ok (X1, y1) ->
  exists m, Machine.__init__ w df = Ok m.
Proof.
  intros Ht Hf Ho.
  destruct (after_oversampling w _ (mkRandomUnderSampler (Some 42%Z))
              (mkSVC_params 7 "rbf" (1 # 10) true "ovo" (Some 42%Z)) _ _ _ _ Ho)
    as [X2 [y2 [svc [Hu Hs]]]].
  unfold Machine.__init__. rewrite Ht. simpl. rewrite Hf. simpl.
  rewrite Ho. simpl. rewrite Hu. simpl. rewrite Hs. simpl.
  eexists. reflexivity.
Qed.

Lemma init_when_checked (w : World) (df : DataFrame) (target : Series)
  (features : DataFrame) (y0 : list Label) (X0 : Frame) :
  DataFrame_getitem df "Rarity" = Ok target ->
  DataFrame_getitems df ["Level"; "Health"; "Energy"; "Sanity"] = Ok features ->
  series_labels target = Ok y0 ->
  check_array features = Ok X0 ->
  length (frame_rows X0) = length y0 ->
  2 <= length (np_unique y0) ->
  (forall c, In c y0 -> count y0 c = n_majority y0 \/ 5 < count y0 c) ->
  exists m, Machine.__init__ w df = Ok m.
Proof.
  intros Ht Hf Hy HX Hlen Hcls Hsize.
  destruct (SMOTE_make_all_total w (SMOTE_new (Some 42%Z)) (frame_rows X0) y0
              (sampling_strategy_not_majority y0)) as [[Xn yn] Hall].
  { intros c n Hin Hn. apply not_majority_entries in Hin. destruct Hin as [Hc ->].
    rewrite (class_rows_length _ _ c Hlen). simpl.
    destruct (Hsize c Hc) as [Heq|Hgt]; [lia | exact Hgt]. }
  apply (init_of_oversampled w df target features
           (mkFrame (frame_columns X0) (frame_rows X0 ++ Xn)) (y0 ++ yn) Ht Hf).
  unfold SMOTE_fit_resample. rewrite Hy. simpl. rewrite HX. simpl.
  unfold check_consistent_length, check_more_than_one_class.
  rewrite Hlen, Nat.eqb_refl. simpl.
  destruct (Nat.leb_spec (length (np_unique y0)) 1); [lia|]. simpl.
  rewrite Hall. reflexivity.
Qed.

Lemma transpose_length (n : nat) (cols : list (list Q)) : length (transpose n cols) = n.
Proof.
  revert cols. induction n as [|n' IH]; intro cols; simpl; [reflexivity|].
  now rewrite IH.
Qed.

Lemma moderate_fits_float64 (q : Q) : moderate q = true -> fits_float64 q = true.
Proof.
  unfold moderate, fits_float64. rewrite !Qle_bool_iff. intro H.
  eapply Qle_trans; [exact H|].
  apply Qle_bool_iff. vm_compute. reflexivity.
Qed.

Lemma numeric_moderate_in_range (df : DataFrame) :
  forallb (fun c => numeric_moderate (snd c)) df = true ->
  forallb (fun c => numeric_in_range (snd c)) df = true.
Proof.
  rewrite !forallb_forall. intros H c Hc. specialize (H c Hc).
  destruct (snd c) as [xs|xs]; [|discriminate]. simpl in *.
  rewrite forallb_forall in *. intros q Hq. apply moderate_fits_float64. now apply H.
Qed.

(** Construction succeeds on every table, of columns under names of their
    own, that has a "Rarity" column of text labels with at least two
    classes, each of them as large as the largest one or of more than five
    rows, and the four feature columns, of numbers of moderate size. *)
Theorem construction_succeeds (w : World) (df : DataFrame) (labels : list string)
  (features : DataFrame) :
  DataFrame_wf df = true ->
  NoDup (DataFrame_columns df) ->
  DataFrame_getitem df "Rarity" = Ok (StrCol labels) ->
  DataFrame_getitems df ["Level"; "Health"; "Energy"; "Sanity"] = Ok features ->
  forallb (fun c => numeric_moderate (snd c)) features = true ->
  2 <= length (np_unique (map LStr labels)) ->
  (forall c, In c (map LStr labels) ->
             count (map LStr labels) c = n_majority (map LStr labels) \/
             5 < count (map LStr labels) c) ->
  exists m, Machine.__init__ w df = Ok m.
Proof.
  intros Hwf _ Ht Hf Hnum Hcls Hsize.
  apply numeric_moderate_in_range in Hnum.
  destruct (DataFrame_getitems_columns _ _ _ Hf) as [Hcols Hin].
  assert (length labels = DataFrame_len df) as Hl
    by exact (DataFrame_wf_In df "Rarity" (StrCol labels) Hwf
                (DataFrame_getitem_In _ _ _ Ht)).
  assert (DataFrame_len features = DataFrame_len df) as Hlenf.
  { destruct features as [|[c s] fs]; [discriminate Hcols|]. simpl.
    apply (DataFrame_wf_In df c s Hwf). apply Hin. now left. }
  assert (labels <> []) as Hne.
  { intro Hnil. rewrite Hnil in Hcls. simpl in Hcls. lia. }
  assert (DataFrame_len df <> 0) as Hpos.
  { rewrite <- Hl. destruct labels; [congruence | discriminate]. }
  apply (init_when_checked w df (StrCol labels) features (map LStr labels)
           (mkFrame (DataFrame_columns features)
              (transpose (DataFrame_len features)
                 (map (fun c => Series_numbers (snd c)) features)))
           Ht Hf eq_refl).
  - unfold check_array. rewrite (mapM_series_floats_numeric _ Hnum). simpl.
    destruct (Nat.eqb_spec (DataFrame_len features) 0) as [Hz|_]; [lia | reflexivity].
  - simpl. rewrite transpose_length, length_map. lia.
  - exact Hcls.
  - exact Hsize.
Qed.

Lemma DataFrame_getitems_present (df : DataFrame) (names : list string) :
  has_columns df names = true -> exists features, DataFrame_getitems df names = Ok features.
Proof.
  unfold has_columns, DataFrame_getitems.
  induction names as [|n ns IH]; simpl; [intros _; eexists; reflexivity|].
  intro H. apply andb_prop in H. destruct H as [Hn Hns].
  destruct (DataFrame_getitem_present df n Hn) as [s Hs].
  destruct (IH Hns) as [fs Hfs].
  rewrite Hs. simpl. rewrite Hfs. simpl. eexists. reflexivity.
Qed.

End Success.

(** ** Sizes and rows of the resampled table *)

Section Sizes.

Context `{L : Sklearn}.

Lemma list_sum_indicator (d : Label) (f : Label -> nat) (cls : list Label) :
  NoDup cls ->
  list_sum (map (fun c => (if Label_eq_dec d c then 1 else 0) + f c) cls)
  = (if in_dec Label_eq_dec d cls then 1 else 0) + list_sum (map f cls).
Proof.
  induction cls as [|h t IH]; intro Hnd; simpl; [reflexivity|].
  inversion Hnd as [|? ? Hnotin Hnd']; subst. rewrite (IH Hnd').
  destruct (Label_eq_dec d h) as [->|Hne].
  - destruct (Label_eq_dec h h) as [Hh|Hc]; [|congruence].
    destruct (in_dec Label_eq_dec h t); [contradiction | lia].
  - destruct (Label_eq_dec h d) as [Heq|Hd]; [congruence|].
    destruct (in_dec Label_eq_dec d t); lia.
Qed.

Lemma list_sum_const (n : nat) (cls : list Label) (f : Label -> nat) :
  (forall c, In c cls -> f c = n) -> list_sum (map f cls) = length cls * n.
Proof.
  induction cls as [|h t IH]; intro H; simpl; [reflexivity|].
  rewrite (H h (or_introl eq_refl)), IH; [reflexivity|].
  intros c Hc. apply H. now right.
Qed.

(** The rows of a table are those of its classes. *)
Lemma length_sum_counts (y : list Label) (cls : list Label) :
  NoDup cls -> (forall c, In c y -> In c cls) ->
  length y = list_sum (map (count y) cls).
Proof.
  intros Hnd. induction y as [|d y' IH]; intro Hcov.
  - rewrite (list_sum_const 0 cls (count [])) by reflexivity. simpl. lia.
  - assert (map (count (d :: y')) cls
            = map (fun c => (if Label_eq_dec d c then 1 else 0) + count y' c) cls) as ->.
    { apply map_ext. intro c. unfold count. simpl.
      destruct (Label_eq_dec d c); reflexivity. }
    rewrite (list_sum_indicator d (count y') cls Hnd).
    destruct (in_dec Label_eq_dec d cls) as [_|Hn].
    + simpl. f_equal. apply IH. intros c Hc. apply Hcov. now right.
    + exfalso. apply Hn. apply Hcov. now left.
Qed.

Lemma list_sum_le (cls : list Label) (f g : Label -> nat) :
  (forall c, In c cls -> f c <= g c) -> list_sum (map f cls) <= list_sum (map g cls).
Proof.
  induction cls as [|h t IH]; intro H; simpl; [lia|].
  pose proof (H h (or_introl eq_refl)).
  assert (list_sum (map f t) <= list_sum (map g t))
    by (apply IH; intros c Hc; apply H; now right).
  lia.
Qed.

(** A table whose classes all have [n] rows has [n] rows per class. *)
Lemma balanced_length (y : list Label) (n : nat) :
  (forall c, In c y -> count y c = n) -> length y = length (np_unique y) * n.
Proof.
  intro H.
  rewrite (length_sum_counts y (np_unique y) (np_unique_NoDup y)).
  - apply list_sum_const. intros c Hc. apply H. now apply np_unique_In.
  - intros c Hc. now apply np_unique_In.
Qed.

(** After over-sampling every class of the target stands at the size of its
    largest class, no class was added or lost, and rows and labels are still
    aligned. *)
Theorem oversampling_fills_to_majority (w : World) (self : SMOTE) (X : DataFrame)
  (y : Series) (X1 : Frame) (y1 y0 : list Label) :
  SMOTE_fit_resample w self X y = Ok (X1, y1) ->
  series_labels y = Ok y0 ->
  (forall c, In c y1 <-> In c y0) /\
  (forall c, In c y0 -> count y1 c = n_majority y0) /\
  length (frame_rows X1) = length y1 /\
  length y1 = length (np_unique y0) * n_majority y0.
Proof.
  intros H Hy.
  destruct (SMOTE_counts _ _ _ _ _ _ _ H Hy) as [Hne [Hlen [Hin Hout]]].
  pose proof (SMOTE_classes _ _ _ _ _ _ _ H Hy) as Hcls.
  repeat split; try assumption; try (now apply Hcls).
  rewrite (balanced_length y1 (n_majority y0)).
  - now rewrite (np_unique_same_length y1 y0 Hcls).
  - intros c Hc. apply Hin. now apply Hcls.
Qed.

(** Under-sampling on its own, whatever the table: every class is cut to the
    size of the smallest class, no class is lost, and rows and labels stay
    aligned. *)
Theorem undersampling_cuts_to_minority (w : World) (self : RandomUnderSampler)
  (X X2 : Frame) (y y2 : list Label) :
  RandomUnderSampler_fit_resample w self X y = Ok (X2, y2) ->
  (forall c, In c y2 <-> In c y) /\
  (forall c, In c y -> count y2 c = n_minority y) /\
  length (frame_rows X2) = length y2 /\
  length y2 = length (np_unique y) * n_minority y /\
  frame_columns X2 = frame_columns X.
Proof.
  intro H.
  destruct (RandomUnderSampler_counts _ _ _ _ _ _ H) as [Hlen [Hin Hout]].
  pose proof (RandomUnderSampler_classes _ _ _ _ _ _ H) as Hcls.
  split; [exact Hcls|]. split; [exact Hin|]. split; [exact Hlen|]. split.
  - rewrite (balanced_length y2 (n_minority y)).
    + now rewrite (np_unique_same_length y2 y Hcls).
    + intros c Hc. apply Hin. now apply Hcls.
  - now apply (RandomUnderSampler_columns w self X X2 y y2).
Qed.

(** The classifier is fitted on as many rows as there are classes times the
    size of the largest class of "Rarity", never on fewer rows than the
    table has. *)
Theorem training_table_size (w : World) (df : DataFrame) (m : Machine.t) :
  Machine.__init__ w df = Ok m ->
  exists target y0 X2 y2,
    DataFrame_getitem df "Rarity" = Ok target /\
    series_labels target = Ok y0 /\
    SVC_fit w (svc_params (Machine.model m)) X2 y2 = Ok (Machine.model m) /\
    length (frame_rows X2) = length y2 /\
    length y2 = length (classes_ (Machine.model m)) * n_majority y0 /\
    length y0 <= length y2.
Proof.
  intro H. apply init_Ok in H.
  destruct H as [target [features [X1 [y1 [X2 [y2 [svc [Et [Ef [Eo [Eu [Es ->]]]]]]]]]]]].
  destruct (SMOTE_fit_resample_Ok _ _ _ _ _ _ Eo)
    as [X0 [y0 [Xn [yn [Ey _]]]]].
  destruct (SMOTE_counts _ _ _ _ _ _ _ Eo Ey) as [Hne [Hlen1 [Hin1 _]]].
  pose proof (SMOTE_classes _ _ _ _ _ _ _ Eo Ey) as Hc1.
  destruct (RandomUnderSampler_counts _ _ _ _ _ _ Eu) as [Hlen2 [Hin2 _]].
  pose proof (RandomUnderSampler_classes _ _ _ _ _ _ Eu) as Hc2.
  assert (y1 <> []) as Hne1.
  { destruct y0 as [|c y0']; [congruence|]. intro Hy1.
    assert (In c y1) as Hc by (apply Hc1; now left). rewrite Hy1 in Hc. exact Hc. }
  destruct (uniform_counts y1 (n_majority y0) Hne1) as [_ Hmin].
  { intros c Hc. apply Hin1. now apply Hc1. }
  assert (forall c, In c y2 -> count y2 c = n_majority y0) as Hbal.
  { intros c Hc. rewrite Hin2 by now apply Hc2. exact Hmin. }
  assert (length y2 = length (np_unique y2) * n_majority y0) as Hsize
    by now apply balanced_length.
  exists target, y0, X2, y2.
  unfold SVC_fit in Es |- *. bind_inv Es.
  destruct (length (np_unique y2) <? 2) eqn:Ecls; [discriminate|].
  inversion Es; subst svc; clear Es. simpl.
  rewrite E. simpl. repeat split; try assumption.
  rewrite Hsize.
  rewrite (length_sum_counts y0 (np_unique y2) (np_unique_NoDup y2)).
  - rewrite <- (list_sum_const (n_majority y0) (np_unique y2) (fun _ => n_majority y0))
      by reflexivity.
    apply list_sum_le. intros c _. apply count_le_majority.
  - intros c Hc. apply np_unique_In. apply Hc2. now apply Hc1.
Qed.


End Sizes.

(** ** Which rows under-sampling keeps *)

Section Selection.

Context `{L : Sklearn}.

Lemma sample_eq_dec (p q : Row * Label) : {p = q} + {p <> q}.
Proof.
  decide equality; [apply Label_eq_dec|].
  apply list_eq_dec. decide equality; [apply Pos.eq_dec | apply Z.eq_dec].
Qed.

Lemma remove_nth_perm {A : Type} (i : nat) (l : list A) (d : A) :
  i < length l -> Permutation (nth i l d :: remove_nth i l) l.
Proof.
  revert i. induction l as [|h t IH]; intros i Hi; simpl in *; [lia|].
  destruct i as [|i']; [apply Permutation_refl|].
  eapply perm_trans; [apply perm_swap|]. apply perm_skip. apply IH. lia.
Qed.

(** What a selection without replacement returns, with what it leaves, is
    the population. *)
Lemma choice_leftover {A : Type} (g : RandomState) (pop : list A) (size : nat) :
  exists rest, Permutation (fst (choice g pop size) ++ rest) pop.
Proof.
  revert g pop. induction size as [|size' IH]; intros g pop; simpl.
  - exists pop. apply Permutation_refl.
  - destruct pop as [|a0 pop']; [exists []; apply Permutation_refl|].
    destruct (rng_below g (length (a0 :: pop'))) as [r g'].
    set (i := r mod length (a0 :: pop')).
    assert (i < length (a0 :: pop')) as Hi
      by (apply Nat.mod_upper_bound; simpl; lia).
    destruct (IH g' (remove_nth i (a0 :: pop'))) as [rest Hrest].
    destruct (choice g' (remove_nth i (a0 :: pop')) size') as [picked g''].
    simpl in Hrest |- *. exists rest.
    eapply perm_trans; [apply perm_skip, Hrest|].
    apply (remove_nth_perm i (a0 :: pop') a0 Hi).
Qed.

Lemma RandomUnderSampler_select_leftover (g : RandomState) (X : list Row)
  (y : list Label) (strategy : list (Label * nat)) (classes : list Label) :
  exists dropped,
    Permutation (RandomUnderSampler_select g X y strategy classes ++ dropped)
                (flat_map (tagged X y) classes).
Proof.
  revert g. induction classes as [|tc classes' IH]; intro g; simpl.
  - exists []. apply Permutation_refl.
  - destruct (dict_get strategy tc) as [n|].
    + destruct (choice_leftover g (class_rows X y tc) n) as [rest Hrest].
      destruct (choice g (class_rows X y tc) n) as [picked g']. simpl in Hrest.
      destruct (IH g') as [dropped Hd].
      exists (map (fun x => (x, tc)) rest ++ dropped).
      unfold tagged at 1. rewrite <- (Permutation_map (fun x => (x, tc)) Hrest).
      rewrite map_app, <- !app_assoc. apply Permutation_app_head.
      rewrite <- Hd.
      rewrite !app_assoc. apply Permutation_app_tail. apply Permutation_app_comm.
    + destruct (IH g) as [dropped Hd]. exists dropped.
      rewrite <- app_assoc. apply Permutation_app_head. exact Hd.
Qed.

Lemma tagged_filter (X : list Row) (y : list Label) (c : Label) :
  tagged X y c = filter (fun p => label_eqb (snd p) c) (combine X y).
Proof.
  unfold tagged, class_rows. rewrite map_map.
  induction (combine X y) as [|[x d] l IH]; simpl; [reflexivity|].
  destruct (label_eqb d c) eqn:E; simpl; [|exact IH].
  apply label_eqb_eq in E. subst. now rewrite IH.
Qed.

Lemma count_occ_filter_class (l : list (Row * Label)) (c : Label) (q : Row * Label) :
  count_occ sample_eq_dec (filter (fun p => label_eqb (snd p) c) l) q
  = if label_eqb (snd q) c then count_occ sample_eq_dec l q else 0.
Proof.
  induction l as [|p l' IH]; simpl; [now destruct (label_eqb (snd q) c)|].
  destruct (label_eqb (snd p) c) eqn:Ep; simpl.
  - destruct (sample_eq_dec p q) as [->|Hne]; rewrite IH.
    + rewrite Ep. reflexivity.
    + destruct (label_eqb (snd q) c); reflexivity.
  - rewrite IH. destruct (sample_eq_dec p q) as [->|Hne]; [|reflexivity].
    rewrite Ep. reflexivity.
Qed.

(** A table is made of its classes. *)
Lemma classes_partition (X : list Row) (y : list Label) (classes : list Label) :
  NoDup classes -> (forall c, In c y -> In c classes) ->
  Permutation (flat_map (tagged X y) classes) (combine X y).
Proof.
  intros Hnd Hcov. apply (Permutation_count_occ sample_eq_dec). intro q.
  assert (forall cls, NoDup cls ->
            count_occ sample_eq_dec (flat_map (tagged X y) cls) q
            = if in_dec Label_eq_dec (snd q) cls
              then count_occ sample_eq_dec (combine X y) q else 0) as Hsum.
  { induction cls as [|h t IH]; intro Hn; simpl; [reflexivity|].
    inversion Hn as [|? ? Hnotin Hn']; subst.
    rewrite count_occ_app, (IH Hn'), tagged_filter, count_occ_filter_class.
    unfold label_eqb.
    destruct (Label_eq_dec (snd q) h) as [Heq|Hne].
    - destruct (Label_eq_dec h (snd q)) as [Hh|Hh]; [|congruence].
      destruct (in_dec Label_eq_dec (snd q) t) as [Hi|Hi]; [|lia].
      subst h. contradiction.
    - destruct (Label_eq_dec h (snd q)) as [Hh|Hh]; [congruence|].
      destruct (in_dec Label_eq_dec (snd q) t); reflexivity. }
  rewrite (Hsum classes Hnd).
  destruct (in_dec Label_eq_dec (snd q) classes) as [Hi|Hi]; [reflexivity|].
  symmetry. apply count_occ_not_In. intro Hq. apply Hi. apply Hcov.
  destruct q as [x c]. simpl. now apply in_combine_r in Hq.
Qed.

Lemma combine_fst_snd {A B : Type} (l : list (A * B)) :
  combine (map fst l) (map snd l) = l.
Proof.
  induction l as [|[a b] l' IH]; simpl; [reflexivity | now rewrite IH].
Qed.

Lemma RandomUnderSampler_leftover (w : World) (self : RandomUnderSampler)
  (X X2 : Frame) (y y2 : list Label) :
  RandomUnderSampler_fit_resample w self X y = Ok (X2, y2) ->
  exists dropped,
    Permutation (combine (frame_rows X2) y2 ++ dropped) (combine (frame_rows X) y).
Proof.
  unfold RandomUnderSampler_fit_resample. intro H.
  bind_inv H. bind_inv H. bind_inv H. inversion H; subst; clear H. simpl.
  rewrite combine_fst_snd.
  destruct (RandomUnderSampler_select_leftover
              (check_random_state w (rus_random_state self)) (frame_rows X) y
              (sampling_strategy_not_minority y) (np_unique y)) as [dropped Hd].
  exists dropped. eapply perm_trans; [exact Hd|].
  apply classes_partition; [apply np_unique_NoDup|].
  intros c Hc. now apply np_unique_In.
Qed.

(** Under-sampling invents no row and repeats none: the rows it returns,
    each with its label, together with the rows it drops, are the rows it
    was given. *)
Theorem undersampling_selects_input_rows (w : World) (self : RandomUnderSampler)
  (X X2 : Frame) (y y2 : list Label) :
  RandomUnderSampler_fit_resample w self X y = Ok (X2, y2) ->
  exists dropped,
    Permutation (combine (frame_rows X2) y2 ++ dropped) (combine (frame_rows X) y).
Proof. exact (RandomUnderSampler_leftover w self X X2 y y2). Qed.

(** In the constructor under-sampling drops nothing: the table the
    classifier is fitted on holds the rows of the over-sampled table, each
    with its label, in another order. *)
Theorem undersampling_after_oversampling_keeps_all (w : World) (over : SMOTE)
  (under : RandomUnderSampler) (X : DataFrame) (y : Series)
  (X1 X2 : Frame) (y1 y2 : list Label) :
  SMOTE_fit_resample w over X y = Ok (X1, y1) ->
  RandomUnderSampler_fit_resample w under X1 y1 = Ok (X2, y2) ->
  Permutation (combine (frame_rows X2) y2) (combine (frame_rows X1) y1) /\
  Permutation y2 y1.
Proof.
  intros Ho Hu.
  destruct (SMOTE_fit_resample_Ok _ _ _ _ _ _ Ho) as [X0 [y0 [Xn [yn [Ey _]]]]].
  destruct (SMOTE_counts _ _ _ _ _ _ _ Ho Ey) as [Hne [Hlen1 [Hin1 _]]].
  pose proof (SMOTE_classes _ _ _ _ _ _ _ Ho Ey) as Hc1.
  destruct (RandomUnderSampler_counts _ _ _ _ _ _ Hu) as [Hlen2 [Hin2 Hout2]].
  pose proof (RandomUnderSampler_classes _ _ _ _ _ _ Hu) as Hc2.
  assert (y1 <> []) as Hne1.
  { destruct y0 as [|c y0']; [congruence|]. intro Hy1.
    assert (In c y1) as Hc by (apply Hc1; now left). rewrite Hy1 in Hc. exact Hc. }
  destruct (uniform_counts y1 (n_majority y0) Hne1) as [_ Hmin].
  { intros c Hc. apply Hin1. now apply Hc1. }
  assert (forall c, count y2 c = count y1 c) as Hsame.
  { intro c. destruct (in_dec Label_eq_dec c y1) as [Hc|Hc].
    - rewrite (Hin2 c Hc), Hmin. symmetry. apply Hin1. now apply Hc1.
    - rewrite (Hout2 c Hc). symmetry. now apply count_zero. }
  assert (Permutation y2 y1) as Hperm
    by (apply (Permutation_count_occ Label_eq_dec); exact Hsame).
  split; [|exact Hperm].
  destruct (RandomUnderSampler_leftover _ _ _ _ _ _ Hu) as [dropped Hd].
  pose proof (Permutation_length Hd) as Hl.
  pose proof (Permutation_length Hperm) as Hl'.
  rewrite length_app, !length_combine in Hl.
  destruct dropped as [|p dropped']; [|simpl in Hl; lia].
  now rewrite app_nil_r in Hd.
Qed.

End Selection.

(** ** The order of the columns *)

Section Columns.

Context `{L : Sklearn}.

Lemma DataFrame_getitem_NoDup (df : DataFrame) (c : string) (s : Series) :
  NoDup (DataFrame_columns df) -> In (c, s) df -> DataFrame_getitem df c = Ok s.
Proof.
  unfold DataFrame_columns.
  induction df as [|[c' s'] df' IH]; simpl; [intros _ []|].
  intros Hnd Hin. inversion Hnd as [|? ? Hnotin Hnd']; subst.
  destruct Hin as [Heq|Hin].
  - inversion Heq; subst. now rewrite String.eqb_refl.
  - destruct (String.eqb_spec c' c) as [->|Hne]; [|now apply IH].
    exfalso. apply Hnotin. change c with (fst (c, s)). now apply in_map.
Qed.

Lemma DataFrame_getitem_absent (df : DataFrame) (c : string) :
  ~ In c (DataFrame_columns df) -> DataFrame_getitem df c = Raise (KeyError c).
Proof.
  unfold DataFrame_columns.
  induction df as [|[c' s'] df' IH]; simpl; [reflexivity|].
  intro H. destruct (String.eqb_spec c' c) as [->|Hne]; [exfalso; apply H; now left|].
  apply IH. intro Hin. apply H. now right.
Qed.

Lemma DataFrame_getitem_perm (df1 df2 : DataFrame) (c : string) :
  Permutation df1 df2 -> NoDup (DataFrame_columns df1) ->
  DataFrame_getitem df1 c = DataFrame_getitem df2 c.
Proof.
  intros Hp Hnd.
  assert (NoDup (DataFrame_columns df2)) as Hnd2
    by (apply (Permutation_NoDup (Permutation_map fst Hp)); exact Hnd).
  destruct (DataFrame_getitem df1 c) as [s|e] eqn:E1.
  - apply DataFrame_getitem_In in E1. symmetry.
    apply DataFrame_getitem_NoDup; [exact Hnd2|].
    now apply (Permutation_in _ Hp).
  - pose proof (DataFrame_getitem_Raise _ _ _ E1) as He. subst e. symmetry.
    apply DataFrame_getitem_absent. intro Hin.
    apply (Permutation_in _ (Permutation_sym (Permutation_map fst Hp))) in Hin.
    apply in_map_iff in Hin. destruct Hin as [[c' s] [Heq Hin]]. simpl in Heq. subst c'.
    rewrite (DataFrame_getitem_NoDup df1 c s Hnd Hin) in E1. discriminate.
Qed.

Lemma init_agree (w : World) (df1 df2 : DataFrame) :
  (forall c, DataFrame_getitem df1 c = DataFrame_getitem df2 c) ->
  Machine.__init__ w df1 = Machine.__init__ w df2.
Proof.
  intro Hagree. unfold Machine.__init__, DataFrame_getitems.
  rewrite (Hagree "Rarity").
  rewrite (mapM_ext (fun n => s <- DataFrame_getitem df1 n ;; Ok (n, s))
                    (fun n => s <- DataFrame_getitem df2 n ;; Ok (n, s)));
    [reflexivity|].
  intros c _. now rewrite Hagree.
Qed.

(** The order of the columns of the table does not matter: two tables with
    the same columns, under distinct names, give the same construction. *)
Theorem column_order_is_irrelevant (w : World) (df1 df2 : DataFrame) :
  Permutation df1 df2 ->
  NoDup (DataFrame_columns df1) ->
  Machine.__init__ w df1 = Machine.__init__ w df2.
Proof.
  intros Hp Hnd. apply init_agree. intro c. now apply DataFrame_getitem_perm.
Qed.

End Columns.

(** ** The pipeline on the small instance *)

#[local] Existing Instance Toy.lib.
#[local] Existing Instance Toy.joblib.

Example toy_construction : Machine.__init__ Toy.world Toy.skewed = Ok Toy.machine.
Proof. vm_compute. reflexivity. Qed.

(** A later construction from the same table differs by its timestamp. *)
Example toy_construction_later :
  exists m,
    Machine.__init__ Toy.later Toy.skewed = Ok m /\
    Machine.model m = Machine.model Toy.machine /\
    Machine.timestamp m = "2023-07-02 11:45:10 PM".
Proof.
  eexists. split; [vm_compute; reflexivity|]. split; reflexivity.
Qed.

Example toy_info :
  Machine.info Toy.machine
  = "Base Model:Support Vector Machines<br>Timestamp:2023-07-01 09:30:00 AM".
Proof. reflexivity. Qed.

Example toy_call_batch :
  Machine.__call__ Toy.machine Toy.batch = Ok (LStr "Rank 0", 7 # 10).
Proof. vm_compute. reflexivity. Qed.

Lemma resampling_stage_balanced_witness :
  Machine.__init__ Toy.world Toy.skewed = Ok Toy.machine /\
  exists target features y0 X1 y1 X2 y2,
    DataFrame_getitem Toy.skewed "Rarity" = Ok target /\
    DataFrame_getitems Toy.skewed ["Level"; "Health"; "Energy"; "Sanity"] = Ok features /\
    series_labels target = Ok y0 /\
    SMOTE_fit_resample Toy.world (Machine.oversampling Toy.machine) features target
      = Ok (X1, y1) /\
    RandomUnderSampler_fit_resample Toy.world (Machine.undersampling Toy.machine) X1 y1
      = Ok (X2, y2) /\
    SVC_fit Toy.world (svc_params (Machine.model Toy.machine)) X2 y2
      = Ok (Machine.model Toy.machine) /\
    (forall c, In c y0 -> count y2 c = n_majority y1) /\
    (forall ci cj, In ci y0 -> In cj y0 -> count y2 ci = count y2 cj).
Proof.
  assert (Machine.__init__ Toy.world Toy.skewed = Ok Toy.machine) as H
    by (vm_compute; reflexivity).
  split; [exact H|].
  exact (resampling_stage_balanced Toy.world Toy.skewed Toy.machine H).
Defined.

Lemma oversampling_keeps_undersampling_cuts_witness :
  SMOTE_fit_resample Toy.world (SMOTE_new (Some 42%Z)) Toy.skewed_features
    Toy.skewed_target = Ok (fst Toy.oversampled, snd Toy.oversampled) /\
  RandomUnderSampler_fit_resample Toy.world (mkRandomUnderSampler (Some 42%Z))
    (fst Toy.oversampled) (snd Toy.oversampled)
    = Ok (fst Toy.undersampled, snd Toy.undersampled) /\
  (exists X0 y0 X_new y_new,
      check_array Toy.skewed_features = Ok X0 /\
      series_labels Toy.skewed_target = Ok y0 /\
      frame_rows (fst Toy.oversampled) = frame_rows X0 ++ X_new /\
      snd Toy.oversampled = y0 ++ y_new /\
      length (frame_rows X0) <= length (frame_rows (fst Toy.oversampled)) /\
      length y0 <= length (snd Toy.oversampled) /\
      forall c, count y0 c <= count (snd Toy.oversampled) c) /\
  (forall c, count (snd Toy.undersampled) c <= count (snd Toy.oversampled) c).
Proof.
  assert (SMOTE_fit_resample Toy.world (SMOTE_new (Some 42%Z)) Toy.skewed_features
            Toy.skewed_target = Ok (fst Toy.oversampled, snd Toy.oversampled)) as Ho
    by (vm_compute; reflexivity).
  assert (RandomUnderSampler_fit_resample Toy.world (mkRandomUnderSampler (Some 42%Z))
            (fst Toy.oversampled) (snd Toy.oversampled)
          = Ok (fst Toy.undersampled, snd Toy.undersampled)) as Hu
    by (vm_compute; reflexivity).
  split; [exact Ho|]. split; [exact Hu|].
  exact (oversampling_keeps_undersampling_cuts _ _ _ _ _ _ _ _ _ _ _ Ho Hu).
Defined.

Lemma construction_reads_five_columns_witness :
  NoDup (DataFrame_columns Toy.skewed) /\
  NoDup (DataFrame_columns Toy.renamed) /\
  (forall c, In c ["Rarity"; "Level"; "Health"; "Energy"; "Sanity"] ->
             DataFrame_getitem Toy.skewed c = DataFrame_getitem Toy.renamed c) /\
  Machine.__init__ Toy.world Toy.skewed = Machine.__init__ Toy.world Toy.renamed /\
  forall feature_basis,
    (m <- Machine.__init__ Toy.world Toy.skewed ;; Machine.__call__ m feature_basis)
    = (m <- Machine.__init__ Toy.world Toy.renamed ;; Machine.__call__ m feature_basis).
Proof.
  assert (NoDup (DataFrame_columns Toy.skewed)) as Hnd1.
  { vm_compute. repeat (constructor; [simpl; intuition discriminate|]). constructor. }
  assert (NoDup (DataFrame_columns Toy.renamed)) as Hnd2.
  { vm_compute. repeat (constructor; [simpl; intuition discriminate|]). constructor. }
  assert (forall c, In c ["Rarity"; "Level"; "Health"; "Energy"; "Sanity"] ->
            DataFrame_getitem Toy.skewed c = DataFrame_getitem Toy.renamed c) as H.
  { intros c Hc. simpl in Hc.
    repeat (destruct Hc as [<-|Hc]; [vm_compute; reflexivity|]). destruct Hc. }
  split; [exact Hnd1|]. split; [exact Hnd2|]. split; [exact H|].
  exact (construction_reads_five_columns Toy.world Toy.skewed Toy.renamed Hnd1 Hnd2 H).
Defined.


(** The saved controller opens under the other spelling of its path too, a
    path into a directory that does not exist is refused by [save] and by
    [open], and a file that is no pickle does not open. *)
Example toy_open_other_spelling :
  Machine.open "./model.joblib" Toy.saved = Ok (Machine.IsMachine Toy.machine).
Proof. vm_compute. reflexivity. Qed.

Example toy_save_refused :
  Machine.save Toy.machine "nodir/model.joblib" Toy.disk
  = Raise (FileNotFoundError "nodir/model.joblib").
Proof. reflexivity. Qed.

Example toy_open_refused :
  Machine.open "model.joblib" Toy.disk = Raise (FileNotFoundError "model.joblib") /\
  Machine.open "nodir/model.joblib" Toy.saved
  = Raise (FileNotFoundError "nodir/model.joblib") /\
  Machine.open "notes.txt" Toy.saved = Raise (UnpicklingError "invalid load key").
Proof. repeat split; vm_compute; reflexivity. Qed.

Lemma batch_surfaces_first_row_witness :
  valid_features (feature_names_in_ (Machine.model Toy.machine)) Toy.batch = true /\
  (exists confidence,
     Machine.__call__ Toy.machine Toy.batch
     = Ok (libsvm_predict (fitted_ (Machine.model Toy.machine))
             (DataFrame_first_row Toy.batch), confidence) /\
     In confidence
        (libsvm_predict_proba (fitted_ (Machine.model Toy.machine))
           (DataFrame_first_row Toy.batch)) /\
     forall p,
       In p (libsvm_predict_proba (fitted_ (Machine.model Toy.machine))
               (DataFrame_first_row Toy.batch)) ->
       (p <= confidence)%Q) /\
  Machine.__call__ Toy.machine (DataFrame_head Toy.batch)
  = Machine.__call__ Toy.machine Toy.batch /\
  forall other,
    valid_features (feature_names_in_ (Machine.model Toy.machine)) other = true ->
    DataFrame_first_row other = DataFrame_first_row Toy.batch ->
    Machine.__call__ Toy.machine other = Machine.__call__ Toy.machine Toy.batch.
Proof.
  assert (valid_features (feature_names_in_ (Machine.model Toy.machine)) Toy.batch = true)
    as Hv by (vm_compute; reflexivity).
  split; [exact Hv|].
  exact (batch_surfaces_first_row Toy.machine Toy.batch Hv).
Defined.

(** The first row of the batch, alone and as [head] gives it. *)
Example toy_batch_head :
  DataFrame_head Toy.batch = Toy.one_row /\
  DataFrame_first_row Toy.batch = Toy.first_row.
Proof. split; reflexivity. Qed.



Lemma construction_fails_on_empty_or_incomplete_witness :
  DataFrame_wf (Toy.monsters "Rank 0" 0) = true /\
  (DataFrame_len (Toy.monsters "Rank 0" 0) = 0 \/
   has_columns (Toy.monsters "Rank 0" 0)
     ["Rarity"; "Level"; "Health"; "Energy"; "Sanity"] = false) /\
  exists e,
    Machine.__init__ Toy.world (Toy.monsters "Rank 0" 0) = Raise e /\
    exn_class e
    = if has_columns (Toy.monsters "Rank 0" 0)
           ["Rarity"; "Level"; "Health"; "Energy"; "Sanity"]
      then "ValueError" else "KeyError".
Proof.
  assert (DataFrame_wf (Toy.monsters "Rank 0" 0) = true) as Hwf by reflexivity.
  assert (DataFrame_len (Toy.monsters "Rank 0" 0) = 0 \/
          has_columns (Toy.monsters "Rank 0" 0)
            ["Rarity"; "Level"; "Health"; "Energy"; "Sanity"] = false) as Hcase
    by (left; reflexivity).
  split; [exact Hwf|]. split; [exact Hcase|].
  exact (construction_fails_on_empty_or_incomplete Toy.world _ Hwf Hcase).
Defined.

(** C5 as stated fails.  The table of an empty collection and a table
    without its "Rarity" column raise [KeyError], and an empty table that has
    its columns raises [ValueError]: no construction raises an
    [EmptyDatasetError] or a [SchemaMismatchError]. *)
Lemma empty_and_unlabelled_raise_builtin_errors :
  Machine.__init__ Toy.world DataFrame_empty = Raise (KeyError "Rarity") /\
  Machine.__init__ Toy.world (Toy.monsters "Rank 0" 0)
    = Raise (ValueError "Found array with 0 sample(s) while a minimum of 1 is required") /\
  Machine.__init__ Toy.world Toy.unlabelled = Raise (KeyError "Rarity") /\
  ~ (exists e, Machine.__init__ Toy.world DataFrame_empty = Raise e /\
               exn_class e = "EmptyDatasetError") /\
  ~ (exists e, Machine.__init__ Toy.world (Toy.monsters "Rank 0" 0) = Raise e /\
               exn_class e = "EmptyDatasetError") /\
  ~ (exists e, Machine.__init__ Toy.world Toy.unlabelled = Raise e /\
               exn_class e = "SchemaMismatchError").
Proof.
  split; [vm_compute; reflexivity|].
  split; [vm_compute; reflexivity|].
  split; [vm_compute; reflexivity|].
  repeat split; intros [e [He Hc]]; vm_compute in He; inversion He; subst e;
    simpl in Hc; discriminate.
Qed.





(** ** The store and the further properties on the small instances *)

#[local] Existing Instance ToyDB.lab.

Lemma seed_appends_witness :
  (0 < 3)%Z /\
  exists stored s',
    Database.seed (Database.__init__ "monsters") 3 ToyDB.store
      = (Database.Return (Database.write_acknowledged ToyDB.store), s') /\
    length stored = Z.to_nat 3 /\
    Database.collections s' (Database.collection (Database.__init__ "monsters"))
      = Database.collections ToyDB.store
          (Database.collection (Database.__init__ "monsters")) ++ stored /\
    Database.count (Database.__init__ "monsters") s'
      = Database.count (Database.__init__ "monsters") ToyDB.store + Z.to_nat 3 /\
    forall other,
      Database.collection other <> Database.collection (Database.__init__ "monsters") ->
      Database.collections s' (Database.collection other)
      = Database.collections ToyDB.store (Database.collection other).
Proof.
  assert (0 < 3)%Z as H by lia.
  split; [exact H|].
  exact (seed_appends (Database.__init__ "monsters") 3 ToyDB.store H).
Defined.

Example toy_seed :
  Database.collections
    (snd (Database.seed (Database.__init__ "monsters") 3 ToyDB.store)) "monsters"
  = [107; 208; 340; 441; 542].
Proof. vm_compute. reflexivity. Qed.

Lemma seed_nothing_raises_witness :
  (0 <= 0)%Z /\
  Database.seed (Database.__init__ "monsters") 0 ToyDB.store
  = (Database.RaiseTypeError "documents must be a non-empty list", ToyDB.store).
Proof.
  assert (0 <= 0)%Z as H by lia.
  split; [exact H|].
  exact (seed_nothing_raises (Database.__init__ "monsters") 0 ToyDB.store H).
Defined.

Lemma reset_seed_count_witness :
  (0 < 1500)%Z /\
  Database.count (Database.__init__ "monsters")
    (snd (Database.seed (Database.__init__ "monsters") 1500
            (snd (Database.reset (Database.__init__ "monsters") ToyDB.store))))
  = Z.to_nat 1500.
Proof.
  assert (0 < 1500)%Z as H by lia.
  split; [exact H|].
  exact (reset_seed_count (Database.__init__ "monsters") 1500 ToyDB.store H).
Defined.

Lemma info_after_construction_witness :
  Machine.__init__ Toy.world Toy.skewed = Ok Toy.machine /\
  Machine.info Toy.machine
  = ("Base Model:Support Vector Machines<br>Timestamp:" ++ now Toy.world)%string.
Proof.
  assert (Machine.__init__ Toy.world Toy.skewed = Ok Toy.machine) as H
    by (vm_compute; reflexivity).
  split; [exact H|].
  exact (info_after_construction Toy.world Toy.skewed Toy.machine H).
Defined.

Lemma fitted_classifier_attributes_witness :
  Machine.__init__ Toy.world Toy.skewed = Ok Toy.machine /\
  exists target y0,
    DataFrame_getitem Toy.skewed "Rarity" = Ok target /\
    series_labels target = Ok y0 /\
    svc_params (Machine.model Toy.machine)
      = mkSVC_params 7 "rbf" (1 # 10) true "ovo" (Some 42%Z) /\
    feature_names_in_ (Machine.model Toy.machine)
      = ["Level"; "Health"; "Energy"; "Sanity"] /\
    NoDup (classes_ (Machine.model Toy.machine)) /\
    (forall c, In c (classes_ (Machine.model Toy.machine)) <-> In c y0) /\
    2 <= length (classes_ (Machine.model Toy.machine)).
Proof.
  assert (Machine.__init__ Toy.world Toy.skewed = Ok Toy.machine) as H
    by (vm_compute; reflexivity).
  split; [exact H|].
  exact (fitted_classifier_attributes Toy.world Toy.skewed Toy.machine H).
Defined.

Lemma call_on_empty_table_witness :
  DataFrame_len (Toy.measures 0) = 0 /\
  exists e, Machine.__call__ Toy.machine (Toy.measures 0) = Raise e /\
            exn_class e = "ValueError".
Proof.
  assert (DataFrame_len (Toy.measures 0) = 0) as H by reflexivity.
  split; [exact H|].
  exact (call_on_empty_table Toy.machine (Toy.measures 0) H).
Defined.

Lemma call_returns_first_row_result_witness :
  Machine.__call__ Toy.machine Toy.batch = Ok (LStr "Rank 0", 7 # 10) /\
  exists X first rest,
    SVC_validate (Machine.model Toy.machine) Toy.batch = Ok X /\
    frame_rows X = first :: rest /\
    LStr "Rank 0" = libsvm_predict (fitted_ (Machine.model Toy.machine)) first /\
    In (7 # 10) (libsvm_predict_proba (fitted_ (Machine.model Toy.machine)) first) /\
    forall p, In p (libsvm_predict_proba (fitted_ (Machine.model Toy.machine)) first) ->
              (p <= 7 # 10)%Q.
Proof.
  assert (Machine.__call__ Toy.machine Toy.batch = Ok (LStr "Rank 0", 7 # 10)) as H
    by (vm_compute; reflexivity).
  split; [exact H|].
  exact (call_returns_first_row_result Toy.machine Toy.batch _ _ H).
Defined.

Lemma oversampled_table_is_fitted_witness :
  forallb (fun c => numeric_moderate (snd c)) Toy.skewed_features = true /\
  SMOTE_fit_resample Toy.world (SMOTE_new (Some 42%Z)) Toy.skewed_features
    Toy.skewed_target = Ok (fst Toy.oversampled, snd Toy.oversampled) /\
  exists X2 y2 svc,
    RandomUnderSampler_fit_resample Toy.world (mkRandomUnderSampler (Some 42%Z))
      (fst Toy.oversampled) (snd Toy.oversampled) = Ok (X2, y2) /\
    SVC_fit Toy.world (mkSVC_params 7 "rbf" (1 # 10) true "ovo" (Some 42%Z)) X2 y2
    = Ok svc.
Proof.
  assert (forallb (fun c => numeric_moderate (snd c)) Toy.skewed_features = true) as Hnum
    by (vm_compute; reflexivity).
  assert (SMOTE_fit_resample Toy.world (SMOTE_new (Some 42%Z)) Toy.skewed_features
            Toy.skewed_target = Ok (fst Toy.oversampled, snd Toy.oversampled)) as H
    by (vm_compute; reflexivity).
  split; [exact Hnum|]. split; [exact H|].
  exact (oversampled_table_is_fitted Toy.world _ _ _ _ Hnum H).
Defined.

Lemma construction_succeeds_witness :
  DataFrame_wf Toy.skewed = true /\
  NoDup (DataFrame_columns Toy.skewed) /\
  DataFrame_getitem Toy.skewed "Rarity" = Ok (StrCol Toy.skewed_rarities) /\
  DataFrame_getitems Toy.skewed ["Level"; "Health"; "Energy"; "Sanity"]
    = Ok Toy.skewed_features /\
  forallb (fun c => numeric_moderate (snd c)) Toy.skewed_features = true /\
  2 <= length (np_unique (map LStr Toy.skewed_rarities)) /\
  (forall c, In c (map LStr Toy.skewed_rarities) ->
             count (map LStr Toy.skewed_rarities) c
             = n_majority (map LStr Toy.skewed_rarities) \/
             5 < count (map LStr Toy.skewed_rarities) c) /\
  exists m, Machine.__init__ Toy.world Toy.skewed = Ok m.
Proof.
  assert (DataFrame_wf Toy.skewed = true) as Hwf by (vm_compute; reflexivity).
  assert (NoDup (DataFrame_columns Toy.skewed)) as Hnd.
  { vm_compute. repeat (constructor; [simpl; intuition discriminate|]). constructor. }
  assert (DataFrame_getitem Toy.skewed "Rarity" = Ok (StrCol Toy.skewed_rarities)) as Ht
    by reflexivity.
  assert (DataFrame_getitems Toy.skewed ["Level"; "Health"; "Energy"; "Sanity"]
          = Ok Toy.skewed_features) as Hf by reflexivity.
  assert (forallb (fun c => numeric_moderate (snd c)) Toy.skewed_features = true) as Hnum
    by (vm_compute; reflexivity).
  assert (2 <= length (np_unique (map LStr Toy.skewed_rarities))) as Hcls
    by (vm_compute; lia).
  assert (forall c, In c (map LStr Toy.skewed_rarities) ->
            count (map LStr Toy.skewed_rarities) c
            = n_majority (map LStr Toy.skewed_rarities) \/
            5 < count (map LStr Toy.skewed_rarities) c) as Hsize.
  { intros c Hc. simpl in Hc.
    repeat (destruct Hc as [<-|Hc];
            [first [left; vm_compute; reflexivity | right; vm_compute; lia]|]).
    destruct Hc. }
  repeat (split; [assumption|]).
  exact (construction_succeeds Toy.world Toy.skewed _ _ Hwf Hnd Ht Hf Hnum Hcls Hsize).
Defined.

Lemma oversampling_fills_to_majority_witness :
  SMOTE_fit_resample Toy.world (SMOTE_new (Some 42%Z)) Toy.skewed_features
    Toy.skewed_target = Ok (fst Toy.oversampled, snd Toy.oversampled) /\
  series_labels Toy.skewed_target = Ok Toy.skewed_labels /\
  (forall c, In c (snd Toy.oversampled) <-> In c Toy.skewed_labels) /\
  (forall c, In c Toy.skewed_labels ->
             count (snd Toy.oversampled) c = n_majority Toy.skewed_labels) /\
  length (frame_rows (fst Toy.oversampled)) = length (snd Toy.oversampled) /\
  length (snd Toy.oversampled)
    = length (np_unique Toy.skewed_labels) * n_majority Toy.skewed_labels.
Proof.
  assert (SMOTE_fit_resample Toy.world (SMOTE_new (Some 42%Z)) Toy.skewed_features
            Toy.skewed_target = Ok (fst Toy.oversampled, snd Toy.oversampled)) as H
    by (vm_compute; reflexivity).
  assert (series_labels Toy.skewed_target = Ok Toy.skewed_labels) as Hy
    by (vm_compute; reflexivity).
  split; [exact H|]. split; [exact Hy|].
  exact (oversampling_fills_to_majority Toy.world _ _ _ _ _ _ H Hy).
Defined.

Lemma undersampling_cuts_to_minority_witness :
  RandomUnderSampler_fit_resample Toy.world (mkRandomUnderSampler (Some 42%Z))
    ToyRuns.skewed_frame Toy.skewed_labels
    = Ok (fst ToyRuns.skewed_cut, snd ToyRuns.skewed_cut) /\
  (forall c, In c (snd ToyRuns.skewed_cut) <-> In c Toy.skewed_labels) /\
  (forall c, In c Toy.skewed_labels ->
             count (snd ToyRuns.skewed_cut) c = n_minority Toy.skewed_labels) /\
  length (frame_rows (fst ToyRuns.skewed_cut)) = length (snd ToyRuns.skewed_cut) /\
  length (snd ToyRuns.skewed_cut)
    = length (np_unique Toy.skewed_labels) * n_minority Toy.skewed_labels /\
  frame_columns (fst ToyRuns.skewed_cut) = frame_columns ToyRuns.skewed_frame.
Proof.
  assert (RandomUnderSampler_fit_resample Toy.world (mkRandomUnderSampler (Some 42%Z))
            ToyRuns.skewed_frame Toy.skewed_labels
          = Ok (fst ToyRuns.skewed_cut, snd ToyRuns.skewed_cut)) as H
    by (vm_compute; reflexivity).
  split; [exact H|].
  exact (undersampling_cuts_to_minority Toy.world _ _ _ _ _ H).
Defined.

Example toy_undersampling :
  snd ToyRuns.skewed_cut
  = repeat (LStr "Rank 0") 6 ++ repeat (LStr "Rank 3") 6.
Proof. reflexivity. Qed.

Lemma training_table_size_witness :
  Machine.__init__ Toy.world Toy.skewed = Ok Toy.machine /\
  exists target y0 X2 y2,
    DataFrame_getitem Toy.skewed "Rarity" = Ok target /\
    series_labels target = Ok y0 /\
    SVC_fit Toy.world (svc_params (Machine.model Toy.machine)) X2 y2
      = Ok (Machine.model Toy.machine) /\
    length (frame_rows X2) = length y2 /\
    length y2 = length (classes_ (Machine.model Toy.machine)) * n_majority y0 /\
    length y0 <= length y2.
Proof.
  assert (Machine.__init__ Toy.world Toy.skewed = Ok Toy.machine) as H
    by (vm_compute; reflexivity).
  split; [exact H|].
  exact (training_table_size Toy.world Toy.skewed Toy.machine H).
Defined.


Lemma undersampling_selects_input_rows_witness :
  RandomUnderSampler_fit_resample Toy.world (mkRandomUnderSampler (Some 42%Z))
    ToyRuns.skewed_frame Toy.skewed_labels
    = Ok (fst ToyRuns.skewed_cut, snd ToyRuns.skewed_cut) /\
  exists dropped,
    Permutation
      (combine (frame_rows (fst ToyRuns.skewed_cut)) (snd ToyRuns.skewed_cut) ++ dropped)
      (combine (frame_rows ToyRuns.skewed_frame) Toy.skewed_labels).
Proof.
  assert (RandomUnderSampler_fit_resample Toy.world (mkRandomUnderSampler (Some 42%Z))
            ToyRuns.skewed_frame Toy.skewed_labels
          = Ok (fst ToyRuns.skewed_cut, snd ToyRuns.skewed_cut)) as H
    by (vm_compute; reflexivity).
  split; [exact H|].
  exact (undersampling_selects_input_rows Toy.world _ _ _ _ _ H).
Defined.

Lemma undersampling_after_oversampling_keeps_all_witness :
  SMOTE_fit_resample Toy.world (SMOTE_new (Some 42%Z)) Toy.skewed_features
    Toy.skewed_target = Ok (fst Toy.oversampled, snd Toy.oversampled) /\
  RandomUnderSampler_fit_resample Toy.world (mkRandomUnderSampler (Some 42%Z))
    (fst Toy.oversampled) (snd Toy.oversampled)
    = Ok (fst Toy.undersampled, snd Toy.undersampled) /\
  Permutation (combine (frame_rows (fst Toy.undersampled)) (snd Toy.undersampled))
              (combine (frame_rows (fst Toy.oversampled)) (snd Toy.oversampled)) /\
  Permutation (snd Toy.undersampled) (snd Toy.oversampled).
Proof.
  assert (SMOTE_fit_resample Toy.world (SMOTE_new (Some 42%Z)) Toy.skewed_features
            Toy.skewed_target = Ok (fst Toy.oversampled, snd Toy.oversampled)) as Ho
    by (vm_compute; reflexivity).
  assert (RandomUnderSampler_fit_resample Toy.world (mkRandomUnderSampler (Some 42%Z))
            (fst Toy.oversampled) (snd Toy.oversampled)
          = Ok (fst Toy.undersampled, snd Toy.undersampled)) as Hu
    by (vm_compute; reflexivity).
  split; [exact Ho|]. split; [exact Hu|].
  exact (undersampling_after_oversampling_keeps_all Toy.world _ _ _ _ _ _ _ _ Ho Hu).
Defined.

Lemma column_order_is_irrelevant_witness :
  Permutation Toy.skewed ToyRuns.reversed /\
  NoDup (DataFrame_columns Toy.skewed) /\
  Machine.__init__ Toy.world Toy.skewed = Machine.__init__ Toy.world ToyRuns.reversed.
Proof.
  assert (Permutation Toy.skewed ToyRuns.reversed) as Hp by apply Permutation_rev.
  assert (NoDup (DataFrame_columns Toy.skewed)) as Hnd.
  { vm_compute. repeat (constructor; [simpl; intuition discriminate|]). constructor. }
  split; [exact Hp|]. split; [exact Hnd|].
  exact (column_order_is_irrelevant Toy.world Toy.skewed ToyRuns.reversed Hp Hnd).
Defined.
